(** * NEMO: authentication backends, the login view and migration 0040

    A shallow embedding of [NEMO/views/authentication.py] and of
    [NEMO/migrations/0040_auto_20220504_1601.py], and the properties of the
    specification proved on it.

    - A Python [str] is the list of its code points, a [bytes] the list of
      its octets.  [str.split], [str.partition], [base64.b64decode] and
      [bytes.decode] are written out after CPython.
    - Side effects are threaded through a state-and-exception monad [M]: the
      [User] table, the lines written by [auth_logger], the trace of the
      database and directory operations, the user of the session.
    - What lies outside the module is the [Environment]: the Django
      settings, the answers of the ldap3 library and of the directory
      servers behind it, the URL configuration, the media files, and the
      backends of other modules.  A directory answers a request by what the
      request is, the same way throughout one call.
    - Django's [RemoteUserBackend.authenticate] and the loop of
      [django.contrib.auth.authenticate] are written out after Django 3.2,
      the version that generated the migration. *)

From Stdlib Require Import ZArith NArith Ascii String Lia.
From stdpp Require Import base option list gmap.

Local Open Scope N_scope.

(** ** Python strings and the library functions the module calls *)

Module Py.

(** A [str] is a sequence of code points, a [bytes] a sequence of octets. *)
Abbreviation pystr := (list N).
Abbreviation pybytes := (list N).

(** Literals are written as Rocq strings. *)
Definition str (s : string) : pystr := N_of_ascii <$> list_ascii_of_string s.
#[global] Arguments str : simpl never.

(** Truth value of a [str] or [None] operand. *)
Definition truthy (s : option pystr) : bool :=
  match s with
  | None | Some [] => false
  | Some (_ :: _) => true
  end.

(** [format(v)] inside an f-string, for a value that is a [str] or [None]. *)
Definition fmt (s : option pystr) : pystr :=
  match s with
  | Some s => s
  | None => str "None"
  end.

(** The code points for which [str.isspace] holds. *)
Definition isspace (c : N) : bool :=
  ((9 <=? c) && (c <=? 13)) || ((28 <=? c) && (c <=? 32))
  || (c =? 133) || (c =? 160) || (c =? 5760)
  || ((8192 <=? c) && (c <=? 8202))
  || (c =? 8232) || (c =? 8233) || (c =? 8239) || (c =? 8287) || (c =? 12288).

(** [s.split()]: the maximal runs of non-whitespace, in order.  [tok] holds
    the current run, reversed. *)
Fixpoint split_from (tok : pystr) (s : pystr) : list pystr :=
  match s with
  | [] => match tok with [] => [] | _ => [rev tok] end
  | c :: s' =>
      if isspace c
      then match tok with
           | [] => split_from [] s'
           | _ => rev tok :: split_from [] s'
           end
      else split_from (c :: tok) s'
  end.

Definition split (s : pystr) : list pystr := split_from [] s.

(** [s.partition(sep)] for a separator of one code point. *)
Fixpoint partition (sep : N) (s : pystr) : pystr * pystr * pystr :=
  match s with
  | [] => ([], [], [])
  | c :: s' =>
      if c =? sep then ([], [sep], s')
      else let '(before, mid, after) := partition sep s' in (c :: before, mid, after)
  end.

(** [s.partition(sep)[0]] *)
Definition partition0 (sep : N) (s : pystr) : pystr := (partition sep s).1.1.

(** *** [base64.b64decode] *)

(** The value of a character of the base64 alphabet. *)
Definition b64_value (c : N) : option N :=
  if (65 <=? c) && (c <=? 90) then Some (c - 65)
  else if (97 <=? c) && (c <=? 122) then Some (c - 71)
  else if (48 <=? c) && (c <=? 57) then Some (c + 4)
  else if c =? 43 then Some 62
  else if c =? 47 then Some 63
  else None.

(** [binascii.a2b_base64] without strict mode: characters outside the
    alphabet are skipped, a pad that completes a quad stops the decoding,
    an incomplete quad at the end is an error ([None]).  [out] is the output
    so far, reversed. *)
Fixpoint a2b_base64_from (quad_pos : nat) (leftchar pads : N) (out : pybytes)
    (data : pybytes) : option pybytes :=
  match data with
  | [] => match quad_pos with O => Some (rev out) | _ => None end
  | c :: data' =>
      if c =? 61 then
        match quad_pos with
        | O | 1%nat => a2b_base64_from quad_pos leftchar pads out data'
        | _ =>
            if 4 <=? N.of_nat quad_pos + (pads + 1) then Some (rev out)
            else a2b_base64_from quad_pos leftchar (pads + 1) out data'
        end
      else
        match b64_value c with
        | None => a2b_base64_from quad_pos leftchar pads out data'
        | Some v =>
            match quad_pos with
            | O => a2b_base64_from 1 v 0 out data'
            | 1%nat =>
                a2b_base64_from 2 (N.land v 15) 0
                  (N.lor (N.shiftl leftchar 2) (N.shiftr v 4) :: out) data'
            | 2%nat =>
                a2b_base64_from 3 (N.land v 3) 0
                  (N.lor (N.shiftl leftchar 4) (N.shiftr v 2) :: out) data'
            | _ =>
                a2b_base64_from 0 0 0 (N.lor (N.shiftl leftchar 6) v :: out) data'
            end
        end
  end.

Definition a2b_base64 (data : pybytes) : option pybytes :=
  a2b_base64_from 0 0 0 [] data.

(** [s.encode('ascii')] *)
Definition encode_ascii (s : pystr) : option pybytes :=
  if forallb (λ c, c <? 128) s then Some s else None.

(** *** [bytes.decode()], that is strict UTF-8 *)

Definition is_cont (b : N) : bool := (128 <=? b) && (b <=? 191).
Definition cont_bits (b : N) : N := N.land b 63.

Fixpoint decode_utf8 (bs : pybytes) : option pystr :=
  match bs with
  | [] => Some []
  | b1 :: t1 =>
      if b1 <? 128 then cons b1 <$> decode_utf8 t1
      else if (194 <=? b1) && (b1 <=? 223) then
        match t1 with
        | b2 :: t2 =>
            if is_cont b2
            then cons (N.shiftl (N.land b1 31) 6 + cont_bits b2) <$> decode_utf8 t2
            else None
        | _ => None
        end
      else if (224 <=? b1) && (b1 <=? 239) then
        match t1 with
        | b2 :: b3 :: t3 =>
            if is_cont b2 && is_cont b3
               && (negb (b1 =? 224) || (160 <=? b2))
               && (negb (b1 =? 237) || (b2 <=? 159))
            then cons (N.shiftl (N.land b1 15) 12 + N.shiftl (cont_bits b2) 6
                       + cont_bits b3) <$> decode_utf8 t3
            else None
        | _ => None
        end
      else if (240 <=? b1) && (b1 <=? 244) then
        match t1 with
        | b2 :: b3 :: b4 :: t4 =>
            if is_cont b2 && is_cont b3 && is_cont b4
               && (negb (b1 =? 240) || (144 <=? b2))
               && (negb (b1 =? 244) || (b2 <=? 143))
            then cons (N.shiftl (N.land b1 7) 18 + N.shiftl (cont_bits b2) 12
                       + N.shiftl (cont_bits b3) 6 + cont_bits b4)
                   <$> decode_utf8 t4
            else None
        | _ => None
        end
      else None
  end.

End Py.
Import Py.


(** ** Exceptions, the world and the monad *)

(** The exceptions that can cross this module.  [LDAPBindError] is a subclass
    of [LDAPException] in ldap3; the constructor [LDAPException] stands for
    every other member of that class. *)
Inductive exn :=
| DoesNotExist
| InactiveUserError (user : pystr)
| KeyError (key : pystr)
| IndexError
| ValueError
| binascii_Error
| UnicodeDecodeError
| LDAPBindError (msg : pystr)
| LDAPException (msg : pystr)
| PermissionDenied
| OtherException (name : pystr).

Inductive outcome (A : Type) :=
| Ret (a : A)
| Raise (e : exn).
Arguments Ret {A} a.
Arguments Raise {A} e.

(** The part of [NEMO.models.User] this module reads. *)
Record User := mkUser { username : pystr; is_active : bool }.

Inductive level := DEBUG | WARNING.

(** *** The ldap3 objects *)

Inductive auto_bind_mode := AUTO_BIND_TLS_BEFORE_BIND | AUTO_BIND_NO_TLS.
Inductive auth_mode := SIMPLE | ANONYMOUS.

(** [Tls(validate=CERT_REQUIRED, version=PROTOCOL_TLSv1_2, ca_certs_file=...)] *)
Record Tls := mkTls { ca_certs_file : option pystr }.

Record Server := mkServer {
  host : pystr;
  server_port : Z;
  server_use_ssl : bool;
  server_tls : Tls }.

Record Connection := mkConnection {
  conn_server : Server;
  conn_user : option pystr;
  conn_password : option pystr;
  conn_auto_bind : auto_bind_mode;
  conn_authentication : auth_mode }.

(** An element of [Connection.response]: an entry carries its [dn] and the
    names of its attributes, a referral carries neither. *)
Inductive response_entry :=
| searchResEntry (dn : pystr) (attributes : list pystr)
| searchResRef.

(** What the directory answers to an automatic bind and to a search.  A
    search that returns [True] has at least one element in the response. *)
Inductive bind_answer :=
| Bound
| BindRefused (msg : pystr)
| BindFault (msg : pystr).

Inductive search_answer :=
| SearchTrue (first : response_entry) (rest : list response_entry)
| SearchFalse
| SearchFault (msg : pystr).

(** *** The observable trace *)

Inductive event :=
| DbGet (name : option pystr)
| DbCreate (name : pystr)
| LdapBind (c : Connection)
| LdapSearch (c : Connection) (search_base search_filter : pystr) (attrs : list pystr)
| LdapUnbind (c : Connection).

(** The [User] table, what [auth_logger] has written, the database and
    directory operations performed, the user of the session, and the
    [sensitive_post_parameters] attribute of the request. *)
Record world := mkWorld {
  users : gmap pystr User;
  log : list (level * pystr);
  trace : list event;
  session : option User;
  sensitive : option (list pystr) }.

Definition add_log (l : level) (msg : pystr) (w : world) : world :=
  mkWorld (users w) (log w ++ [(l, msg)]) (trace w) (session w) (sensitive w).
Definition add_event (e : event) (w : world) : world :=
  mkWorld (users w) (log w) (trace w ++ [e]) (session w) (sensitive w).
Definition set_users (u : gmap pystr User) (w : world) : world :=
  mkWorld u (log w) (trace w) (session w) (sensitive w).
Definition set_session (u : option User) (w : world) : world :=
  mkWorld (users w) (log w) (trace w) u (sensitive w).
Definition set_sensitive (ps : list pystr) (w : world) : world :=
  mkWorld (users w) (log w) (trace w) (session w) (Some ps).

Definition M (A : Type) : Type := world → outcome A * world.

Definition ret {A} (a : A) : M A := λ w, (Ret a, w).
Definition raise {A} (e : exn) : M A := λ w, (Raise e, w).
Definition bind {A B} (m : M A) (k : A → M B) : M B :=
  λ w, match m w with
       | (Ret a, w') => k a w'
       | (Raise e, w') => (Raise e, w')
       end.

Notation "x <- m ;; k" := (bind m (λ x, k))
  (at level 100, m at next level, right associativity).
Notation "m ;; k" := (bind m (λ _, k))
  (at level 100, right associativity).

(** [try: m  except ...: h]: the handler answers [None] for an exception
    that no [except] clause matches, which then propagates. *)
Definition try_except {A} (m : M A) (h : exn → option (M A)) : M A :=
  λ w, match m w with
       | (Ret a, w') => (Ret a, w')
       | (Raise e, w') =>
           match h e with
           | Some handler => handler w'
           | None => (Raise e, w')
           end
       end.

(** [d[key]] on a dictionary entry that may be missing. *)
Definition getitem {A} (key : string) (v : option A) : M A :=
  match v with
  | Some a => ret a
  | None => raise (KeyError (str key))
  end.

(** [l[i]] *)
Definition item {A} (i : nat) (l : list A) : M A :=
  match l !! i with
  | Some a => ret a
  | None => raise IndexError
  end.

Definition auth_logger_warning (msg : pystr) : M unit :=
  λ w, (Ret (), add_log WARNING msg w).
Definition auth_logger_debug (msg : pystr) : M unit :=
  λ w, (Ret (), add_log DEBUG msg w).

(** [User.objects.get(username=name)]; no row has a null username. *)
Definition User_objects_get (name : option pystr) : M User :=
  λ w, let w' := add_event (DbGet name) w in
       match name ≫= (λ n, users w !! n) with
       | Some u => (Ret u, w')
       | None => (Raise DoesNotExist, w')
       end.

(** [base64.b64decode(s)] on a [str] argument, and [bytes.decode()] *)
Definition b64decode (s : pystr) : M pybytes :=
  match encode_ascii s with
  | None => raise ValueError
  | Some data =>
      match a2b_base64 data with
      | None => raise binascii_Error
      | Some raw => ret raw
      end
  end.

Definition bytes_decode (raw : pybytes) : M pystr :=
  match decode_utf8 raw with
  | None => raise UnicodeDecodeError
  | Some s => ret s
  end.

(** ** Requests, responses and the environment *)

(** A [QueryDict] keeps every value of a key, in order; a lookup answers the
    last one. *)
Abbreviation QueryDict := (list (pystr * pystr)).

Definition QueryDict_last (key : pystr) (q : QueryDict) : option pystr :=
  last (snd <$> filter (λ kv, kv.1 = key) q).

(** [q[key]] raises [MultiValueDictKeyError], a [KeyError]. *)
Definition QueryDict_getitem (key : pystr) (q : QueryDict) : M pystr :=
  match QueryDict_last key q with
  | Some v => ret v
  | None => raise (KeyError key)
  end.

(** [q.get(key, default)] *)
Definition QueryDict_get (key : pystr) (dflt : pystr) (q : QueryDict) : pystr :=
  default dflt (QueryDict_last key q).

Record HttpRequest := mkRequest {
  method : pystr;
  META : gmap pystr pystr;
  GET : QueryDict;
  POST : QueryDict;
  user_is_authenticated : bool }.

Inductive context_value :=
| CStr (s : pystr)
| CBool (b : bool).

Inductive HttpResponse :=
| render (template : pystr) (context : list (pystr * context_value))
| HttpResponseRedirect (location : pystr)
| HttpResponseNotAllowed (permitted : list pystr).

(** An element of [settings.LDAP_SERVERS]: a dictionary in which every key
    may be missing. *)
Record ldap_server := mkLdapServer {
  cfg_url : option pystr;
  cfg_port : option Z;
  cfg_use_ssl : option bool;
  cfg_bind_as_authentication : option bool;
  cfg_domain : option pystr;
  cfg_certificate : option pystr;
  cfg_bind_username : option pystr;
  cfg_bind_password : option pystr;
  cfg_search_username_field : option pystr;
  cfg_search_attribute : option pystr;
  cfg_base_dn : option pystr }.

(** What the module reads from outside: the Django settings, the answers of
    the ldap3 library and of the directory servers behind it, the URL
    configuration, the media files, and the authentication backends that
    other modules define. *)
Class Environment := {
  LDAP_SERVERS : list ldap_server;
  AUTHENTICATION_BACKENDS : list pystr;
  Tls_fault : Tls → option pystr;
  Server_fault : Server → option pystr;
  bind_answer_of : Connection → bind_answer;
  search_answer_of : Connection → pystr → pystr → list pystr → search_answer;
  unbind_fault : Connection → option pystr;
  resolves : pystr → bool;
  landing : pystr;
  get_media_file_contents : pystr → pystr;
  other_backend : pystr → HttpRequest → pystr → pystr → M (option User) }.

(** *** The ldap3 calls *)

Section ldap3.
Context `{Environment}.

(** [Tls(...)] and [Server(...)] raise an [LDAPException] on arguments they
    reject. *)
Definition new_Tls (certificate : option pystr) : M Tls :=
  let t := mkTls certificate in
  match Tls_fault t with
  | Some msg => raise (LDAPException msg)
  | None => ret t
  end.

Definition new_Server (url : pystr) (port : Z) (use_ssl : bool) (t : Tls) : M Server :=
  let s := mkServer url port use_ssl t in
  match Server_fault s with
  | Some msg => raise (LDAPException msg)
  | None => ret s
  end.

(** [Connection(s, user=..., password=..., auto_bind=..., authentication=...,
    raise_exceptions=True)] opens the connection and binds. *)
Definition new_Connection (s : Server) (user password : option pystr)
    (auto_bind : auto_bind_mode) (authentication : auth_mode) : M Connection :=
  λ w, let c := mkConnection s user password auto_bind authentication in
       let w' := add_event (LdapBind c) w in
       match bind_answer_of c with
       | Bound => (Ret c, w')
       | BindRefused msg => (Raise (LDAPBindError msg), w')
       | BindFault msg => (Raise (LDAPException msg), w')
       end.

(** [c.search(base, filter, attributes=attrs)] answers the truth value of the
    search together with [c.response]. *)
Definition Connection_search (c : Connection) (search_base search_filter : pystr)
    (attrs : list pystr) : M (bool * list response_entry) :=
  λ w, let w' := add_event (LdapSearch c search_base search_filter attrs) w in
       match search_answer_of c search_base search_filter attrs with
       | SearchTrue first rest => (Ret (true, first :: rest), w')
       | SearchFalse => (Ret (false, []), w')
       | SearchFault msg => (Raise (LDAPException msg), w')
       end.

Definition Connection_unbind (c : Connection) : M unit :=
  λ w, let w' := add_event (LdapUnbind c) w in
       match unbind_fault c with
       | Some msg => (Raise (LDAPException msg), w')
       | None => (Ret (), w')
       end.

End ldap3.

(** [entry.get('attributes', [])] and [entry['dn']] *)
Definition entry_attributes (e : response_entry) : list pystr :=
  match e with
  | searchResEntry _ attributes => attributes
  | searchResRef => []
  end.

Definition entry_dn (e : response_entry) : M pystr :=
  match e with
  | searchResEntry dn _ => ret dn
  | searchResRef => raise (KeyError (str "dn"))
  end.

(** The decorator [sensitive_post_parameters] records the names on the
    request and calls the decorated function. *)
Definition sensitive_post_parameters {A} (ps : list pystr) (view : M A) : M A :=
  λ w, view (set_sensitive ps w).

(** ** Django's [RemoteUserBackend]

    The class attributes a subclass may override, and the [authenticate]
    method every subclass inherits, as Django 3.2 defines it: an unknown
    user is created only under [create_unknown_user]; an inactive user is
    refused. *)
Class RemoteUserBackend_class := {
  cls_create_unknown_user : bool;
  cls_clean_username : pystr → pystr }.

Module RemoteUserBackend.

(** [UserModel.objects.get_or_create(username=name)] *)
Definition get_or_create (name : pystr) : M (User * bool) :=
  λ w, let w' := add_event (DbGet (Some name)) w in
       match users w !! name with
       | Some u => (Ret (u, false), w')
       | None =>
           let u := mkUser name true in
           (Ret (u, true), add_event (DbCreate name) (set_users (<[name := u]> (users w)) w'))
       end.

Definition user_can_authenticate (user : option User) : bool :=
  match user with
  | Some u => is_active u
  | None => true
  end.

Definition authenticate `{RemoteUserBackend_class} (request : HttpRequest)
    (remote_user : option pystr) : M (option User) :=
  if negb (truthy remote_user) then ret None else
  let username := cls_clean_username (default [] remote_user) in
  user <- (if cls_create_unknown_user
           then r <- get_or_create username ;; ret (Some r.1)
           else try_except (u <- User_objects_get (Some username) ;; ret (Some u))
                  (λ e, match e with
                        | DoesNotExist => Some (ret None)
                        | _ => None
                        end)) ;;
  ret (if user_can_authenticate user then user else None).

End RemoteUserBackend.

(** ** [NEMO/views/authentication.py] *)

Module RemoteUserAuthenticationBackend.

Definition create_unknown_user : bool := false.

(** Chops off the Kerberos realm: the ['@'] and everything after. *)
Definition clean_username (username : pystr) : pystr :=
  partition0 64 username.

#[export] Instance cls : RemoteUserBackend_class :=
  {| cls_create_unknown_user := create_unknown_user;
     cls_clean_username := clean_username |}.

(** Inherited from [RemoteUserBackend]. *)
Definition authenticate (request : HttpRequest) (remote_user : option pystr)
  : M (option User) :=
  RemoteUserBackend.authenticate request remote_user.

End RemoteUserAuthenticationBackend.

Module NginxKerberosAuthorizationHeaderAuthenticationBackend.

Definition clean_username (username : option pystr) : M (option pystr) :=
  if negb (truthy username) then ret None else
  let pieces := split (default [] username) in
  if negb (length pieces =? 2)%nat then ret None else
  scheme <- item 0 pieces ;;
  if negb (bool_decide (scheme = str "Basic")) then ret None else
  creds <- item 1 pieces ;;
  raw <- b64decode creds ;;
  decoded <- bytes_decode raw ;;
  ret (Some (partition0 58 decoded)).

Definition authenticate (request : HttpRequest) (username password : option pystr)
  : M (option User) :=
  username <- clean_username (META request !! str "HTTP_AUTHORIZATION") ;;
  r <- try_except (u <- User_objects_get username ;; ret (Some u))
         (λ e, match e with
               | DoesNotExist =>
                   Some (auth_logger_warning
                           (str "Username " ++ fmt username ++
                            str " attempted to authenticate with Kerberos via Nginx, but that username does not exist in the NEMO database. The user was denied access.") ;;
                         ret None)
               | _ => None
               end) ;;
  match r with
  | None => ret None
  | Some user =>
      if negb (is_active user) then
        auth_logger_warning
          (str "User " ++ fmt username ++
           str " successfully authenticated with Kerberos via Nginx, but that user is marked inactive in the NEMO database. The user was denied access.") ;;
        ret None
      else
        auth_logger_debug
          (str "User " ++ fmt username ++
           str " successfully authenticated with Kerberos via Nginx and was granted access to NEMO.") ;;
        ret (Some user)
  end.

End NginxKerberosAuthorizationHeaderAuthenticationBackend.

Module LDAPAuthenticationBackend.
Section with_environment.
Context `{Environment}.

(** How one round of the loop over [settings.LDAP_SERVERS] ends. *)
Inductive loop_exit := Break | Continue.

(** The privileged bind and search of lines 107-125: [inl msg] when the
    search gave no result and the loop moves on with [msg] appended to
    [errors], [inr dn] when the entry to bind as was found. *)
Definition search_for_user (username : pystr) (server : ldap_server) (s : Server)
    (auto_bind : auto_bind_mode) : M (pystr + pystr) :=
  let domain := cfg_domain server in
  let bind_username := cfg_bind_username server in
  let bind_username :=
    if truthy domain && truthy bind_username
    then Some (fmt domain ++ [92] ++ fmt bind_username)
    else bind_username in
  let bind_password := cfg_bind_password server in
  let authentication :=
    if truthy bind_username && truthy bind_password then SIMPLE else ANONYMOUS in
  c <- new_Connection s bind_username bind_password auto_bind authentication ;;
  let search_username_field := default (str "uid") (cfg_search_username_field server) in
  let search_attribute := default (str "cn") (cfg_search_attribute server) in
  base_dn <- getitem "base_dn" (cfg_base_dn server) ;;
  found <- Connection_search c base_dn
             (str "(" ++ search_username_field ++ str "=" ++ username ++ str ")")
             [search_attribute] ;;
  let search := found.1 in
  let response := found.2 in
  no_results <- (if negb search then ret true
                 else first <- item 0 response ;;
                      ret (negb (bool_decide (search_attribute ∈ entry_attributes first)))) ;;
  if (no_results : bool) then
    Connection_unbind c ;;
    url <- getitem "url" (cfg_url server) ;;
    base_dn <- getitem "base_dn" (cfg_base_dn server) ;;
    ret (inl (str "User " ++ username ++ str " attempted to authenticate with LDAP (" ++ url ++
              str "), but the search with dn:" ++ base_dn ++ str ", username_field:" ++
              search_username_field ++ str " and attribute:" ++ search_attribute ++
              str " did not return any results. The user was denied access"))
  else
    response0 <- item 0 response ;;
    ldap_bind_user <- entry_dn response0 ;;
    Connection_unbind c ;;
    ret (inr ldap_bind_user).

(** The body of the [try] statement, lines 98-133. *)
Definition try_body (username password : pystr) (server : ldap_server)
    (errors : list pystr) : M (loop_exit * list pystr) :=
  let port := default 636%Z (cfg_port server) in
  let use_ssl := default true (cfg_use_ssl server) in
  let bind_as_authentication := default true (cfg_bind_as_authentication server) in
  let domain := cfg_domain server in
  t <- new_Tls (cfg_certificate server) ;;
  url <- getitem "url" (cfg_url server) ;;
  s <- new_Server url port use_ssl t ;;
  let auto_bind := if use_ssl then AUTO_BIND_TLS_BEFORE_BIND else AUTO_BIND_NO_TLS in
  let ldap_bind_user := if truthy domain then fmt domain ++ [92] ++ username else username in
  looked_up <- (if negb bind_as_authentication
                then search_for_user username server s auto_bind
                else ret (inr ldap_bind_user)) ;;
  match looked_up with
  | inl msg => ret (Continue, errors ++ [msg])
  | inr ldap_bind_user =>
      c <- new_Connection s (Some ldap_bind_user) (Some password) auto_bind SIMPLE ;;
      Connection_unbind c ;;
      url <- getitem "url" (cfg_url server) ;;
      auth_logger_debug (str "User " ++ username ++
                         str " was successfully authenticated with LDAP (" ++ url ++ str ")") ;;
      ret (Break, errors)
  end.

(** One round of the loop: the [try] statement with its two handlers. *)
Definition try_server (username password : pystr) (server : ldap_server)
    (errors : list pystr) : M (loop_exit * list pystr) :=
  try_except (try_body username password server errors)
    (λ e, match e with
          | LDAPBindError e =>
              Some (url <- getitem "url" (cfg_url server) ;;
                    ret (Continue,
                         errors ++ [str "User " ++ username ++
                                    str " attempted to authenticate with LDAP (" ++ url ++
                                    str "), but entered an incorrect password. The user was denied access: " ++ e]))
          | LDAPException e =>
              Some (url <- getitem "url" (cfg_url server) ;;
                    ret (Continue,
                         errors ++ [str "User " ++ username ++
                                    str " attempted to authenticate with LDAP (" ++ url ++
                                    str "), but an error occurred. The user was denied access: " ++ e]))
          | _ => None
          end).

(** [for server in settings.LDAP_SERVERS: ...], answering
    [is_authenticated_with_ldap] and [errors]. *)
Fixpoint for_servers (username password : pystr) (servers : list ldap_server)
    (errors : list pystr) : M (bool * list pystr) :=
  match servers with
  | [] => ret (false, errors)
  | server :: servers' =>
      r <- try_server username password server errors ;;
      match r.1 with
      | Break => ret (true, r.2)
      | Continue => for_servers username password servers' r.2
      end
  end.

(** [for error in errors: auth_logger.warning(error)] *)
Fixpoint warn_all (errors : list pystr) : M unit :=
  match errors with
  | [] => ret ()
  | error :: errors' => auth_logger_warning error ;; warn_all errors'
  end.

Definition authenticate (request : HttpRequest) (username password : option pystr)
  : M (option User) :=
  sensitive_post_parameters [str "password"] (
    if negb (truthy username) || negb (truthy password) then ret None else
    let username := default [] username in
    let password := default [] password in
    user <- try_except (User_objects_get (Some username))
              (λ e, match e with
                    | DoesNotExist =>
                        Some (auth_logger_warning
                                (str "Username " ++ username ++
                                 str " attempted to authenticate with LDAP, but that username does not exist in the NEMO database. The user was denied access.") ;;
                              raise DoesNotExist)
                    | _ => None
                    end) ;;
    (if negb (is_active user) then
       auth_logger_warning
         (str "User " ++ username ++
          str " successfully authenticated with LDAP, but that user is marked inactive in the NEMO database. The user was denied access.") ;;
       raise (InactiveUserError username)
     else ret ()) ;;
    r <- for_servers username password LDAP_SERVERS [] ;;
    let is_authenticated_with_ldap := r.1 in
    let errors := r.2 in
    if is_authenticated_with_ldap then ret (Some user)
    else warn_all errors ;; ret None).

End with_environment.
End LDAPAuthenticationBackend.

(** ** [django.contrib.auth] *)

Definition REDIRECT_FIELD_NAME : pystr := str "next".

Definition RemoteUser_path : pystr :=
  str "NEMO.views.authentication.RemoteUserAuthenticationBackend".
Definition NginxHeader_path : pystr :=
  str "NEMO.views.authentication.NginxKerberosAuthorizationHeaderAuthenticationBackend".
Definition LDAP_path : pystr :=
  str "NEMO.views.authentication.LDAPAuthenticationBackend".

Section views.
Context `{Environment}.

(** The [authenticate] method of the backend at a dotted path, called with
    the keywords [username] and [password]; [None] when its signature does
    not take them, as for [RemoteUserBackend.authenticate(request,
    remote_user)]. *)
Definition load_backend (path : pystr)
  : option (HttpRequest → pystr → pystr → M (option User)) :=
  if bool_decide (path = RemoteUser_path) then None
  else if bool_decide (path = NginxHeader_path) then
    Some (λ request username password,
            NginxKerberosAuthorizationHeaderAuthenticationBackend.authenticate
              request (Some username) (Some password))
  else if bool_decide (path = LDAP_path) then
    Some (λ request username password,
            LDAPAuthenticationBackend.authenticate request (Some username) (Some password))
  else Some (other_backend path).

(** The loop of [django.contrib.auth.authenticate]: a backend that does not
    take the credentials is skipped, [PermissionDenied] stops the loop, the
    first user returned wins, any other exception propagates. *)
Fixpoint authenticate_with (backends : list pystr) (request : HttpRequest)
    (username password : pystr) : M (option User) :=
  match backends with
  | [] => ret None
  | path :: backends' =>
      match load_backend path with
      | None => authenticate_with backends' request username password
      | Some backend_authenticate =>
          r <- try_except (user <- backend_authenticate request username password ;;
                           ret (Some user))
                 (λ e, match e with
                       | PermissionDenied => Some (ret None)
                       | _ => None
                       end) ;;
          match r with
          | None => ret None
          | Some None => authenticate_with backends' request username password
          | Some (Some user) => ret (Some user)
          end
      end
  end.

Definition authenticate (request : HttpRequest) (username password : pystr)
  : M (option User) :=
  match AUTHENTICATION_BACKENDS with
  | [] => raise (OtherException (str "ImproperlyConfigured"))
  | backends => authenticate_with backends request username password
  end.

(** [login(request, user)] and [logout(request)] *)
Definition login (request : HttpRequest) (user : User) : M unit :=
  λ w, (Ret (), set_session (Some user) w).
Definition logout (request : HttpRequest) : M unit :=
  λ w, (Ret (), set_session None w).

(** [resolve(path)] raises [Resolver404] on a path of no URL pattern. *)
Definition resolve (path : pystr) : M unit :=
  if resolves path then ret () else raise (OtherException (str "Resolver404")).

(** The decorator [require_http_methods]. *)
Definition require_http_methods (request_method_list : list pystr)
    (view : HttpRequest → M HttpResponse) : HttpRequest → M HttpResponse :=
  λ request,
    if bool_decide (method request ∈ request_method_list) then view request
    else ret (HttpResponseNotAllowed request_method_list).

(** ** The views *)

Definition authorization_failed (request : HttpRequest) : M HttpResponse :=
  let authorization_page := get_media_file_contents (str "authorization_failed.html") in
  ret (render (str "authorization_failed.html")
         [(str "authorization_failed", CStr authorization_page)]).

Definition login_user : HttpRequest → M HttpResponse :=
  require_http_methods [str "GET"; str "POST"] (λ request,
  sensitive_post_parameters [str "password"] (
    early <- (if bool_decide (RemoteUser_path ∈ AUTHENTICATION_BACKENDS)
                 || bool_decide (NginxHeader_path ∈ AUTHENTICATION_BACKENDS)
              then
                if user_is_authenticated request
                then ret (Some (HttpResponseRedirect landing))
                else
                  let backends :=
                    filter (λ backend, backend ∉ [RemoteUser_path; NginxHeader_path])
                      AUTHENTICATION_BACKENDS in
                  if (length backends =? 0)%nat
                  then response <- authorization_failed request ;; ret (Some response)
                  else ret None
              else ret None) ;;
    match early with
    | Some response => ret response
    | None =>
        let dictionary (incorrect : bool) :=
          [(str "login_banner", CStr (get_media_file_contents (str "login_banner.html")));
           (str "user_name_or_password_incorrect", CBool incorrect)] in
        if bool_decide (method request = str "GET")
        then ret (render (str "login.html") (dictionary false))
        else
          let username := QueryDict_get (str "username") [] (POST request) in
          let password := QueryDict_get (str "password") [] (POST request) in
          r <- try_except (user <- authenticate request username password ;; ret (inr user))
                 (λ e, match e with
                       | DoesNotExist | InactiveUserError _ =>
                           Some (response <- authorization_failed request ;;
                                 ret (inl response))
                       | _ => None
                       end) ;;
          match r with
          | inl response => ret response
          | inr (Some user) =>
              login request user ;;
              next_page <- try_except
                             (next_page <- QueryDict_getitem REDIRECT_FIELD_NAME (GET request) ;;
                              resolve next_page ;;
                              ret next_page)
                             (λ _, Some (ret landing)) ;;
              ret (HttpResponseRedirect next_page)
          | inr None => ret (render (str "login.html") (dictionary true))
          end
    end)).

Definition logout_user : HttpRequest → M HttpResponse :=
  require_http_methods [str "GET"] (λ request,
    logout request ;;
    ret (HttpResponseRedirect landing)).

End views.

(** ** [NEMO/migrations/0040_auto_20220504_1601.py] *)

Module migrations.

Inductive field_class := BooleanField | CharField | IntegerField | TextField.

Record Field := mkField {
  field_type : field_class;
  field_default : option bool;
  help_text : pystr }.

Inductive operation :=
| AddField (model_name name : pystr) (field : Field)
| AlterField (model_name name : pystr) (field : Field).

(** The project state of the migration framework: per model, the fields by
    name. *)
Abbreviation ProjectState := (gmap pystr (gmap pystr Field)).

(** Applying an operation to the project state, as [state_forwards] does in
    Django 3.2: [AddField] and [AlterField] both need the model (a missing
    one is a [KeyError], here [None]) and set the field of that name to the
    given one; nothing else changes.  What tells the two apart happens in
    the database, outside the project state. *)
Definition apply_operation (op : operation) (state : ProjectState) : option ProjectState :=
  match op with
  | AddField model_name name field | AlterField model_name name field =>
      fields ← state !! model_name;
      Some (<[model_name := <[name := field]> fields]> state)
  end.

Fixpoint apply_operations (ops : list operation) (state : ProjectState)
  : option ProjectState :=
  match ops with
  | [] => Some state
  | op :: ops' => state' ← apply_operation op state; apply_operations ops' state'
  end.

Definition dependencies : list (pystr * pystr) :=
  [(str "NEMO", str "0039_version_4_1_0")].

Definition operations : list operation :=
  [ AddField (str "landingpagechoice") (str "hide_from_staff")
      (mkField BooleanField (Some false)
         (str "Hides this choice from normal users, staff and technicians. When checked, only facility managers and super-users can see the choice"));
    AlterField (str "landingpagechoice") (str "hide_from_users")
      (mkField BooleanField (Some false)
         (str "Hides this choice from normal users. When checked, only staff, technicians, facility managers and super-users can see the choice")) ].

(** The model and field an operation changes. *)
Definition touches (op : operation) : pystr * pystr :=
  match op with
  | AddField model_name name _ | AlterField model_name name _ => (model_name, name)
  end.

Definition lookup_field (state : ProjectState) (model_name name : pystr) : option Field :=
  state !! model_name ≫= (λ fields, fields !! name).

End migrations.


(** ** Notions used to state the properties *)

(** [w] after more directory and database operations and more log lines. *)
Definition extend (evs : list event) (lg : list (level * pystr)) (w : world) : world :=
  mkWorld (users w) (log w ++ lg) (trace w ++ evs) (session w) (sensitive w).

Definition pristine : world := mkWorld ∅ [] [] None None.

(** A header that is absent, empty, not made of exactly two tokens, or whose
    first token is not [Basic]. *)
Definition unusable_header (header : option pystr) : Prop :=
  match header with
  | None => True
  | Some h => h = [] ∨ length (split h) ≠ 2%nat ∨ split h !! 0%nat ≠ Some (str "Basic")
  end.

(** A server descriptor carries the keys the backend subscripts: [url], and
    [base_dn] when the user is looked up before binding. *)
Definition well_formed (server : ldap_server) : Prop :=
  is_Some (cfg_url server) ∧
  (cfg_bind_as_authentication server = Some false → is_Some (cfg_base_dn server)).

Section directory.
Context `{Environment}.

Definition Server_of (server : ldap_server) (url : pystr) : Server :=
  mkServer url (default 636%Z (cfg_port server)) (default true (cfg_use_ssl server))
    (mkTls (cfg_certificate server)).

Definition auto_bind_of (server : ldap_server) : auto_bind_mode :=
  if default true (cfg_use_ssl server) then AUTO_BIND_TLS_BEFORE_BIND else AUTO_BIND_NO_TLS.

(** The connection of the privileged search bind. *)
Definition search_connection (server : ldap_server) (s : Server) : Connection :=
  let bind_username :=
    if truthy (cfg_domain server) && truthy (cfg_bind_username server)
    then Some (fmt (cfg_domain server) ++ [92] ++ fmt (cfg_bind_username server))
    else cfg_bind_username server in
  mkConnection s bind_username (cfg_bind_password server) (auto_bind_of server)
    (if truthy bind_username && truthy (cfg_bind_password server) then SIMPLE else ANONYMOUS).

Definition search_filter_of (username : pystr) (server : ldap_server) : pystr :=
  str "(" ++ default (str "uid") (cfg_search_username_field server) ++ str "=" ++
  username ++ str ")".

(** What the privileged search answers for the user, once the search bind is
    accepted. *)
Definition lookup_answer (username : pystr) (server : ldap_server) (url base_dn : pystr)
  : search_answer :=
  search_answer_of (search_connection server (Server_of server url)) base_dn
    (search_filter_of username server)
    [default (str "cn") (cfg_search_attribute server)].

(** The answer holds a matching entry: its first element is an entry that
    has the search attribute. *)
Definition matching_entry (server : ldap_server) (a : search_answer) : option pystr :=
  match a with
  | SearchTrue first _ =>
      if bool_decide (default (str "cn") (cfg_search_attribute server) ∈ entry_attributes first)
      then match first with
           | searchResEntry dn _ => Some dn
           | searchResRef => None
           end
      else None
  | _ => None
  end.

(** The name the user binds as: the user name, qualified with the domain, or
    the distinguished name the privileged search resolves. *)
Definition bind_user_of (username : pystr) (server : ldap_server) (url : pystr)
  : option pystr :=
  if default true (cfg_bind_as_authentication server) then
    Some (if truthy (cfg_domain server)
          then fmt (cfg_domain server) ++ [92] ++ username else username)
  else
    let c := search_connection server (Server_of server url) in
    match bind_answer_of c, cfg_base_dn server with
    | Bound, Some base_dn =>
        match matching_entry server (lookup_answer username server url base_dn),
              unbind_fault c with
        | Some dn, None => Some dn
        | _, _ => None
        end
    | _, _ => None
    end.

(** The server accepts the user's bind: the connection can be set up, the
    name to bind as is known, the simple bind with the supplied password is
    answered [Bound], and the connection is released without a fault (an
    [LDAPException] anywhere in the round counts against the server). *)
Definition server_accepts (username password : pystr) (server : ldap_server) : bool :=
  match cfg_url server with
  | None => false
  | Some url =>
      let s := Server_of server url in
      match Tls_fault (server_tls s), Server_fault s, bind_user_of username server url with
      | None, None, Some ldap_bind_user =>
          let c := mkConnection s (Some ldap_bind_user) (Some password)
                     (auto_bind_of server) SIMPLE in
          match bind_answer_of c, unbind_fault c with
          | Bound, None => true
          | _, _ => false
          end
      | _, _, _ => false
      end
  end.

(** The privileged search of the server was performed and gave no matching
    entry. *)
Definition lookup_fails (username : pystr) (server : ldap_server) : Prop :=
  ∃ url base_dn,
    cfg_url server = Some url ∧ cfg_base_dn server = Some base_dn ∧
    cfg_bind_as_authentication server = Some false ∧
    Tls_fault (mkTls (cfg_certificate server)) = None ∧
    Server_fault (Server_of server url) = None ∧
    bind_answer_of (search_connection server (Server_of server url)) = Bound ∧
    (lookup_answer username server url base_dn = SearchFalse ∨
     ∃ first rest, lookup_answer username server url base_dn = SearchTrue first rest ∧
                   default (str "cn") (cfg_search_attribute server) ∉ entry_attributes first) ∧
    unbind_fault (search_connection server (Server_of server url)) = None.

(** The line appended to [errors] for a search without result. *)
Definition no_results_message (username : pystr) (server : ldap_server) : pystr :=
  str "User " ++ username ++ str " attempted to authenticate with LDAP (" ++
  fmt (cfg_url server) ++ str "), but the search with dn:" ++ fmt (cfg_base_dn server) ++
  str ", username_field:" ++ default (str "uid") (cfg_search_username_field server) ++
  str " and attribute:" ++ default (str "cn") (cfg_search_attribute server) ++
  str " did not return any results. The user was denied access".

Definition success_message (username : pystr) (server : ldap_server) : pystr :=
  str "User " ++ username ++ str " was successfully authenticated with LDAP (" ++
  fmt (cfg_url server) ++ str ")".





(** One round of the loop, run on its own: the operations it performs and
    the line it leaves in [errors]. *)
Definition round (username password : pystr) (server : ldap_server)
  : outcome (LDAPAuthenticationBackend.loop_exit * list pystr) * world :=
  LDAPAuthenticationBackend.try_server username password server [] pristine.

Definition contacts (username password : pystr) (server : ldap_server) : list event :=
  trace (round username password server).2.

Definition failure_message (username password : pystr) (server : ldap_server) : pystr :=
  match (round username password server).1 with
  | Ret (_, [msg]) => msg
  | _ => []
  end.

(** The first server of the list that accepts the user's bind, with the
    servers before it. *)
Fixpoint first_accepting (username password : pystr) (servers : list ldap_server)
  : option (list ldap_server * ldap_server) :=
  match servers with
  | [] => None
  | server :: servers' =>
      if server_accepts username password server then Some ([], server)
      else match first_accepting username password servers' with
           | Some (before, accepting) => Some (server :: before, accepting)
           | None => None
           end
  end.

(** The server an operation is addressed to. *)
Definition event_host (ev : event) : option pystr :=
  match ev with
  | LdapBind c | LdapSearch c _ _ _ | LdapUnbind c => Some (host (conn_server c))
  | DbGet _ | DbCreate _ => None
  end.

End directory.

(** [errors] is only ever appended to. *)
Definition with_errors (errors : list pystr)
    (r : outcome (LDAPAuthenticationBackend.loop_exit * list pystr)) : outcome (LDAPAuthenticationBackend.loop_exit * list pystr) :=
  match r with
  | Ret (exit, new) => Ret (exit, errors ++ new)
  | Raise e => Raise e
  end.

(** A computation that only adds operations and log lines to the world, the
    same ones whatever the world: its result [r], the operations [evs] and
    the lines [lg] satisfy [Q].  The rounds of the LDAP loop are of this
    kind, and are run symbolically with the rules of [wp]. *)
Definition wp {A} (m : M A)
    (Q : outcome A → list event → list (level * pystr) → Prop) : Prop :=
  ∃ r evs lg, (∀ w, m w = (r, extend evs lg w)) ∧ Q r evs lg.

Section pages.
Context `{Environment}.

(** The two pages a refused login is answered with, as functions of the
    media files of the site: they hold a media file and a flag, nothing of
    the request or of the reason. *)
Definition authorization_failed_page_of (media : pystr → pystr) : HttpResponse :=
  render (str "authorization_failed.html")
    [(str "authorization_failed", CStr (media (str "authorization_failed.html")))].

Definition login_page_of (media : pystr → pystr) (incorrect : bool) : HttpResponse :=
  render (str "login.html")
    [(str "login_banner", CStr (media (str "login_banner.html")));
     (str "user_name_or_password_incorrect", CBool incorrect)].

Definition authorization_failed_page : HttpResponse :=
  authorization_failed_page_of get_media_file_contents.

Definition login_page (incorrect : bool) : HttpResponse :=
  login_page_of get_media_file_contents incorrect.

(** The backends of the settings other than the two that authenticate in
    the middleware. *)
Definition fallback_backends : list pystr :=
  filter (λ backend, backend ∉ [RemoteUser_path; NginxHeader_path]) AUTHENTICATION_BACKENDS.

(** The request gets past the first statement of [login_user]. *)
Definition form_is_served (request : HttpRequest) : bool :=
  negb (bool_decide (RemoteUser_path ∈ AUTHENTICATION_BACKENDS)
        || bool_decide (NginxHeader_path ∈ AUTHENTICATION_BACKENDS))
  || (negb (user_is_authenticated request) && negb (length fallback_backends =? 0)%nat).

(** Where a successful login is sent: the [next] parameter when it is
    present and resolves, the landing page otherwise. *)
Definition redirect_target (request : HttpRequest) : pystr :=
  match QueryDict_last REDIRECT_FIELD_NAME (GET request) with
  | Some next_page => if resolves next_page then next_page else landing
  | None => landing
  end.

Definition unknown_user_message (username : pystr) : pystr :=
  str "Username " ++ username ++
  str " attempted to authenticate with LDAP, but that username does not exist in the NEMO database. The user was denied access.".

Definition inactive_user_message (username : pystr) : pystr :=
  str "User " ++ username ++
  str " successfully authenticated with LDAP, but that user is marked inactive in the NEMO database. The user was denied access.".

End pages.

(** ** A deployment to evaluate the definitions on

    Two directory servers: the first one is searched with a privileged bind
    and knows no entry, the second one binds [EXAMPLE\alice] with the password
    [secret].  The [User] table knows [alice] and the inactive [bob]. *)

Module demo.

Definition alice : User := mkUser (str "alice") true.
Definition bob : User := mkUser (str "bob") false.

Definition user_table : gmap pystr User :=
  <[str "alice" := alice]> (<[str "bob" := bob]> ∅).

Definition start : world := mkWorld user_table [] [] None None.

Definition searched_server : ldap_server :=
  {| cfg_url := Some (str "ldap1.example.org");
     cfg_port := None;
     cfg_use_ssl := None;
     cfg_bind_as_authentication := Some false;
     cfg_domain := None;
     cfg_certificate := None;
     cfg_bind_username := None;
     cfg_bind_password := None;
     cfg_search_username_field := None;
     cfg_search_attribute := None;
     cfg_base_dn := Some (str "dc=example,dc=org") |}.

Definition domain_server : ldap_server :=
  {| cfg_url := Some (str "ldap2.example.org");
     cfg_port := Some 389%Z;
     cfg_use_ssl := Some false;
     cfg_bind_as_authentication := None;
     cfg_domain := Some (str "EXAMPLE");
     cfg_certificate := None;
     cfg_bind_username := None;
     cfg_bind_password := None;
     cfg_search_username_field := None;
     cfg_search_attribute := None;
     cfg_base_dn := None |}.

(** A descriptor without [url]. *)
Definition nameless_server : ldap_server :=
  {| cfg_url := None;
     cfg_port := None;
     cfg_use_ssl := None;
     cfg_bind_as_authentication := None;
     cfg_domain := None;
     cfg_certificate := None;
     cfg_bind_username := None;
     cfg_bind_password := None;
     cfg_search_username_field := None;
     cfg_search_attribute := None;
     cfg_base_dn := None |}.

Definition directory_bind (c : Connection) : bind_answer :=
  if bool_decide (host (conn_server c) = str "ldap1.example.org") then
    match conn_authentication c with
    | ANONYMOUS => Bound
    | SIMPLE => BindRefused (str "invalidCredentials")
    end
  else if bool_decide (host (conn_server c) = str "ldap2.example.org")
          && bool_decide (conn_user c = Some (str "EXAMPLE" ++ [92] ++ str "alice"))
          && bool_decide (conn_password c = Some (str "secret"))
  then Bound
  else if bool_decide (host (conn_server c) = str "ldap2.example.org")
  then BindRefused (str "invalidCredentials")
  else BindFault (str "socket connection error").

Definition deployment (servers : list ldap_server) (backends : list pystr) : Environment :=
  {| LDAP_SERVERS := servers;
     AUTHENTICATION_BACKENDS := backends;
     Tls_fault := λ _, None;
     Server_fault := λ _, None;
     bind_answer_of := directory_bind;
     search_answer_of := λ _ _ _ _, SearchFalse;
     unbind_fault := λ _, None;
     resolves := λ path, bool_decide (path = str "/calendar/");
     landing := str "/";
     get_media_file_contents := λ _, [];
     other_backend := λ _ _ _ _, ret None |}.

Definition ldap_site : Environment :=
  deployment [searched_server; domain_server] [LDAP_path].


Definition kerberos_site : Environment :=
  deployment [] [RemoteUser_path; NginxHeader_path].

Definition post_login (name password : string) (query : QueryDict) : HttpRequest :=
  {| method := str "POST";
     META := ∅;
     GET := query;
     POST := [(str "username", str name); (str "password", str password)];
     user_is_authenticated := false |}.

Definition get_login : HttpRequest :=
  {| method := str "GET";
     META := ∅;
     GET := [];
     POST := [];
     user_is_authenticated := false |}.

(** A request whose [Authorization] header is not of the [Basic] scheme. *)
Definition bearer_request : HttpRequest :=
  {| method := str "GET";
     META := <[str "HTTP_AUTHORIZATION" := str "Bearer abc"]> ∅;
     GET := [];
     POST := [];
     user_is_authenticated := false |}.

(** The model before migration 0040: [hide_from_users] exists, without a
    default. *)
Definition landingpagechoice_0039 : gmap pystr migrations.Field :=
  <[str "hide_from_users" := migrations.mkField migrations.BooleanField None []]>
    (<[str "name" := migrations.mkField migrations.CharField None []]> ∅).

Definition state_0039 : gmap pystr (gmap pystr migrations.Field) :=
  <[str "landingpagechoice" := landingpagechoice_0039]> ∅.

(** The searched server without [base_dn], and with a service account. *)
Definition baseless_server : ldap_server :=
  {| cfg_url := Some (str "ldap1.example.org");
     cfg_port := None;
     cfg_use_ssl := None;
     cfg_bind_as_authentication := Some false;
     cfg_domain := None;
     cfg_certificate := None;
     cfg_bind_username := None;
     cfg_bind_password := None;
     cfg_search_username_field := None;
     cfg_search_attribute := None;
     cfg_base_dn := None |}.

Definition service_server : ldap_server :=
  {| cfg_url := Some (str "ldap1.example.org");
     cfg_port := None;
     cfg_use_ssl := None;
     cfg_bind_as_authentication := Some false;
     cfg_domain := None;
     cfg_certificate := None;
     cfg_bind_username := Some (str "service");
     cfg_bind_password := Some (str "changeme");
     cfg_search_username_field := None;
     cfg_search_attribute := None;
     cfg_base_dn := Some (str "dc=example,dc=org") |}.

(** A directory that knows [alice] under a distinguished name. *)
Definition alice_dn : pystr := str "uid=alice,ou=people,dc=example,dc=org".

Definition entry_bind (c : Connection) : bind_answer :=
  match conn_authentication c with
  | ANONYMOUS => Bound
  | SIMPLE =>
      if bool_decide (conn_user c = Some alice_dn)
         && bool_decide (conn_password c = Some (str "secret"))
      then Bound else BindRefused (str "invalidCredentials")
  end.

Definition entry_site : Environment :=
  {| LDAP_SERVERS := [searched_server];
     AUTHENTICATION_BACKENDS := [LDAP_path];
     Tls_fault := λ _, None;
     Server_fault := λ _, None;
     bind_answer_of := entry_bind;
     search_answer_of := λ _ _ _ _,
       SearchTrue (searchResEntry alice_dn [str "cn"; str "mail"]) [];
     unbind_fault := λ _, None;
     resolves := λ path, bool_decide (path = str "/calendar/");
     landing := str "/";
     get_media_file_contents := λ _, [];
     other_backend := λ _ _ _ _, ret None |}.

Definition put_login : HttpRequest :=
  {| method := str "PUT";
     META := ∅;
     GET := [];
     POST := [];
     user_is_authenticated := false |}.

Definition signed_in_post : HttpRequest :=
  {| method := str "POST";
     META := ∅;
     GET := [];
     POST := [(str "username", str "alice"); (str "password", str "secret")];
     user_is_authenticated := true |}.

End demo.

(** ** Notions used to state further properties *)

(** [w'] is [w] after some more operations and log lines: same [User] table,
    same session, the trace and the log extended. *)
Definition grows (w w' : world) : Prop :=
  users w' = users w ∧ session w' = session w ∧
  log w `prefix_of` log w' ∧ trace w `prefix_of` trace w'.

(** A computation that reads the world and only adds to its trace and log. *)
Definition frame {A} (m : M A) : Prop := ∀ w, grows w (m w).2.

(** The exception the decoding of a credentials token ends in, if any. *)
Definition decode_failure (creds : pystr) : option exn :=
  match encode_ascii creds with
  | None => Some ValueError
  | Some data =>
      match a2b_base64 data with
      | None => Some binascii_Error
      | Some raw =>
          match decode_utf8 raw with
          | None => Some UnicodeDecodeError
          | Some _ => None
          end
      end
  end.

(** A request that carries the header [Authorization: header]. *)
Definition with_authorization (header : pystr) (request : HttpRequest) : HttpRequest :=
  {| method := method request;
     META := <[str "HTTP_AUTHORIZATION" := header]> (META request);
     GET := GET request;
     POST := POST request;
     user_is_authenticated := user_is_authenticated request |}.

(** The connection a directory operation is made on. *)
Definition event_connection (ev : event) : option Connection :=
  match ev with
  | LdapBind c | LdapSearch c _ _ _ | LdapUnbind c => Some c
  | DbGet _ | DbCreate _ => None
  end.
(** * Properties *)

(** ** The state monad *)

Lemma extend_nil w : extend [] [] w = w.
Proof. destruct w. unfold extend. simpl. by rewrite !app_nil_r. Qed.

Lemma extend_extend e1 l1 e2 l2 w :
  extend e2 l2 (extend e1 l1 w) = extend (e1 ++ e2) (l1 ++ l2) w.
Proof. unfold extend. simpl. by rewrite !app_assoc. Qed.

Lemma add_event_extend ev w : add_event ev w = extend [ev] [] w.
Proof. destruct w. unfold add_event, extend. simpl. by rewrite app_nil_r. Qed.

Lemma add_log_extend l msg w : add_log l msg w = extend [] [(l, msg)] w.
Proof. destruct w. unfold add_log, extend. simpl. by rewrite app_nil_r. Qed.

Lemma bind_Ret {A B} (m : M A) (k : A → M B) a w w' :
  m w = (Ret a, w') → bind m k w = k a w'.
Proof. intros Hm. unfold bind. by rewrite Hm. Qed.

Lemma bind_Raise {A B} (m : M A) (k : A → M B) e w w' :
  m w = (Raise e, w') → bind m k w = (Raise e, w').
Proof. intros Hm. unfold bind. by rewrite Hm. Qed.

Lemma try_except_Ret {A} (m : M A) h a w w' :
  m w = (Ret a, w') → try_except m h w = (Ret a, w').
Proof. intros Hm. unfold try_except. by rewrite Hm. Qed.

Lemma try_except_Raise {A} (m : M A) h e w w' :
  m w = (Raise e, w') →
  try_except m h w = match h e with Some handler => handler w' | None => (Raise e, w') end.
Proof. intros Hm. unfold try_except. by rewrite Hm. Qed.

Lemma truthy_nonempty (s : pystr) : s ≠ [] → truthy (Some s) = true.
Proof. by destruct s. Qed.

Lemma User_objects_get_Some name user w :
  users w !! name = Some user →
  User_objects_get (Some name) w = (Ret user, add_event (DbGet (Some name)) w).
Proof. intros Hu. unfold User_objects_get. simpl. by rewrite Hu. Qed.

Lemma User_objects_get_None name w :
  name ≫= (λ n, users w !! n) = None →
  User_objects_get name w = (Raise DoesNotExist, add_event (DbGet name) w).
Proof. intros Hu. unfold User_objects_get. by rewrite Hu. Qed.

Section wp_rules.
Context {A : Type}.
Implicit Types (Q : outcome A → list event → list (level * pystr) → Prop).

Lemma wp_ret (a : A) Q : Q (Ret a) [] [] → wp (ret a) Q.
Proof. intros HQ. exists (Ret a), [], []. split; [|done]. intros w. by rewrite extend_nil. Qed.

Lemma wp_raise e Q : Q (Raise e) [] [] → wp (raise e) Q.
Proof. intros HQ. exists (Raise e), [], []. split; [|done]. intros w. by rewrite extend_nil. Qed.

Lemma wp_bind {B} (m : M B) (k : B → M A) Q :
  wp m (λ r1 e1 l1,
          match r1 with
          | Ret b => wp (k b) (λ r e2 l2, Q r (e1 ++ e2) (l1 ++ l2))
          | Raise e => Q (Raise e) e1 l1
          end) →
  wp (bind m k) Q.
Proof.
  intros (r1 & e1 & l1 & Hm & Hk). destruct r1 as [b|e].
  - destruct Hk as (r & e2 & l2 & Hk & HQ). exists r, (e1 ++ e2), (l1 ++ l2).
    split; [|done]. intros w. unfold bind. by rewrite Hm, Hk, extend_extend.
  - exists (Raise e), e1, l1. split; [|done]. intros w. unfold bind. by rewrite Hm.
Qed.

Lemma wp_try_except (m : M A) h Q :
  wp m (λ r1 e1 l1,
          match r1 with
          | Ret a => Q (Ret a) e1 l1
          | Raise e =>
              match h e with
              | Some handler => wp handler (λ r e2 l2, Q r (e1 ++ e2) (l1 ++ l2))
              | None => Q (Raise e) e1 l1
              end
          end) →
  wp (try_except m h) Q.
Proof.
  intros (r1 & e1 & l1 & Hm & Hk). destruct r1 as [a|e].
  - exists (Ret a), e1, l1. split; [|done]. intros w. unfold try_except. by rewrite Hm.
  - destruct (h e) as [handler|] eqn:Hh.
    + destruct Hk as (r & e2 & l2 & Hk & HQ). exists r, (e1 ++ e2), (l1 ++ l2).
      split; [|done]. intros w. unfold try_except. by rewrite Hm, Hh, Hk, extend_extend.
    + exists (Raise e), e1, l1. split; [|done]. intros w. unfold try_except.
      by rewrite Hm, Hh.
Qed.

Lemma wp_getitem key (v : option A) Q :
  match v with
  | Some a => Q (Ret a) [] []
  | None => Q (Raise (KeyError (str key))) [] []
  end → wp (getitem key v) Q.
Proof. destruct v; [apply wp_ret|apply wp_raise]. Qed.

Lemma wp_item i (l : list A) Q :
  match l !! i with
  | Some a => Q (Ret a) [] []
  | None => Q (Raise IndexError) [] []
  end → wp (item i l) Q.
Proof. unfold item. destruct (l !! i); [apply wp_ret|apply wp_raise]. Qed.

(** The result, the operations and the lines are those of a run from any
    world, so of the run from the pristine one. *)
Lemma wp_run (m : M A) Q w :
  wp m Q → Q (m w).1 (trace (m pristine).2) (log (m pristine).2) ∧
           m w = ((m pristine).1, extend (trace (m pristine).2) (log (m pristine).2) w).
Proof.
  intros (r & evs & lg & Hm & HQ). rewrite (Hm pristine), (Hm w). simpl. done.
Qed.

End wp_rules.

Section wp_library.
Context `{Environment}.

Lemma wp_new_Tls certificate Q :
  match Tls_fault (mkTls certificate) with
  | Some msg => Q (Raise (LDAPException msg)) [] []
  | None => Q (Ret (mkTls certificate)) [] []
  end → wp (new_Tls certificate) Q.
Proof.
  unfold new_Tls. cbv zeta. destruct (Tls_fault _); [apply wp_raise|apply wp_ret].
Qed.

Lemma wp_new_Server url port use_ssl t Q :
  match Server_fault (mkServer url port use_ssl t) with
  | Some msg => Q (Raise (LDAPException msg)) [] []
  | None => Q (Ret (mkServer url port use_ssl t)) [] []
  end → wp (new_Server url port use_ssl t) Q.
Proof.
  unfold new_Server. cbv zeta. destruct (Server_fault _); [apply wp_raise|apply wp_ret].
Qed.

Lemma wp_new_Connection s user password auto_bind authentication Q :
  (let c := mkConnection s user password auto_bind authentication in
   match bind_answer_of c with
   | Bound => Q (Ret c) [LdapBind c] []
   | BindRefused msg => Q (Raise (LDAPBindError msg)) [LdapBind c] []
   | BindFault msg => Q (Raise (LDAPException msg)) [LdapBind c] []
   end) → wp (new_Connection s user password auto_bind authentication) Q.
Proof.
  cbv zeta. intros HQ. unfold new_Connection. cbv zeta.
  destruct (bind_answer_of _); eexists _, [_], []; (split; [|exact HQ]);
    intros w; by rewrite add_event_extend.
Qed.

Lemma wp_Connection_search c search_base search_filter attrs Q :
  match search_answer_of c search_base search_filter attrs with
  | SearchTrue first rest =>
      Q (Ret (true, first :: rest)) [LdapSearch c search_base search_filter attrs] []
  | SearchFalse => Q (Ret (false, [])) [LdapSearch c search_base search_filter attrs] []
  | SearchFault msg =>
      Q (Raise (LDAPException msg)) [LdapSearch c search_base search_filter attrs] []
  end → wp (Connection_search c search_base search_filter attrs) Q.
Proof.
  intros HQ. unfold Connection_search. cbv zeta.
  destruct (search_answer_of _ _ _ _); eexists _, [_], []; (split; [|exact HQ]);
    intros w; by rewrite add_event_extend.
Qed.

Lemma wp_Connection_unbind c Q :
  match unbind_fault c with
  | Some msg => Q (Raise (LDAPException msg)) [LdapUnbind c] []
  | None => Q (Ret ()) [LdapUnbind c] []
  end → wp (Connection_unbind c) Q.
Proof.
  intros HQ. unfold Connection_unbind. cbv zeta.
  destruct (unbind_fault _); eexists _, [_], []; (split; [|exact HQ]);
    intros w; by rewrite add_event_extend.
Qed.

End wp_library.

Lemma wp_entry_dn e Q :
  match e with
  | searchResEntry dn _ => Q (Ret dn) [] []
  | searchResRef => Q (Raise (KeyError (str "dn"))) [] []
  end → wp (entry_dn e) Q.
Proof. destruct e; [apply wp_ret|apply wp_raise]. Qed.

Lemma wp_auth_logger_debug msg Q :
  Q (Ret ()) [] [(DEBUG, msg)] → wp (auth_logger_debug msg) Q.
Proof.
  intros HQ. exists (Ret ()), [], [(DEBUG, msg)]. split; [|done].
  intros w. unfold auth_logger_debug. by rewrite add_log_extend.
Qed.

Lemma wp_auth_logger_warning msg Q :
  Q (Ret ()) [] [(WARNING, msg)] → wp (auth_logger_warning msg) Q.
Proof.
  intros HQ. exists (Ret ()), [], [(WARNING, msg)]. split; [|done].
  intros w. unfold auth_logger_warning. by rewrite add_log_extend.
Qed.

(** ** The header backend *)

Section header_backend.
Import NginxKerberosAuthorizationHeaderAuthenticationBackend.

Lemma clean_username_unusable header w :
  unusable_header header → clean_username header w = (Ret None, w).
Proof.
  unfold clean_username. destruct header as [[|c h]|]; simpl; try done.
  intros [?|[Hlen|Hscheme]]; first done.
  - destruct (Nat.eqb_spec (length (split (c :: h))) 2); done.
  - destruct (Nat.eqb_spec (length (split (c :: h))) 2) as [Hlen|]; last done.
    simpl. unfold bind, item.
    destruct (split (c :: h) !! 0%nat) as [scheme|] eqn:Hs.
    + simpl. rewrite bool_decide_false; first done. congruence.
    + apply lookup_ge_None in Hs. lia.
Qed.

(** C9.  A header that is absent, empty, not made of exactly two tokens or
    whose first token is not [Basic] yields the user name [None]; the lookup
    by that name matches no row of whatever [User] table, the denial is
    logged and [None] is returned. *)
Theorem header_unusable_denied request username password w :
  unusable_header (META request !! str "HTTP_AUTHORIZATION") →
  clean_username (META request !! str "HTTP_AUTHORIZATION") w = (Ret None, w) ∧
  authenticate request username password w =
    (Ret None,
     extend [DbGet None]
       [(WARNING,
         str "Username None attempted to authenticate with Kerberos via Nginx, but that username does not exist in the NEMO database. The user was denied access.")]
       w).
Proof.
  intros Hheader. split; [by apply clean_username_unusable|].
  unfold authenticate.
  erewrite bind_Ret by (by apply clean_username_unusable).
  erewrite bind_Ret; last first.
  { erewrite try_except_Raise by (by apply bind_Raise, User_objects_get_None).
    unfold bind, auth_logger_warning, ret. reflexivity. }
  cbv beta iota.
  by rewrite add_event_extend, add_log_extend, extend_extend.
Qed.

Lemma split_from_token tok s :
  forallb (λ c, negb (isspace c)) s = true → tok ++ s ≠ [] →
  split_from tok s = [rev tok ++ s].
Proof.
  revert tok. induction s as [|c s IH]; intros tok Hs Hne.
  - rewrite app_nil_r in Hne |- *. by destruct tok.
  - cbn [forallb] in Hs. apply andb_true_iff in Hs as [Hc Hs].
    apply negb_true_iff in Hc. cbn [split_from]. rewrite Hc.
    rewrite IH; [|done|done]. cbn [rev]. by rewrite <-app_assoc.
Qed.

Lemma split_Basic creds :
  forallb (λ c, negb (isspace c)) creds = true → creds ≠ [] →
  split (str "Basic " ++ creds) = [str "Basic"; creds].
Proof.
  intros Hs Hne. unfold split.
  change (str "Basic " ++ creds) with (66 :: 97 :: 115 :: 105 :: 99 :: 32 :: creds).
  change (split_from [] (66 :: 97 :: 115 :: 105 :: 99 :: 32 :: creds))
    with (str "Basic" :: split_from [] creds).
  by rewrite split_from_token.
Qed.

(** What [clean_username] answers on a header [Basic <creds>]: the text
    before the first colon of the decoded credentials, whatever it holds. *)
Lemma clean_username_usable creds raw decoded w :
  forallb (λ c, negb (isspace c)) creds = true → creds ≠ [] →
  encode_ascii creds = Some creds →
  a2b_base64 creds = Some raw → decode_utf8 raw = Some decoded →
  clean_username (Some (str "Basic " ++ creds)) w = (Ret (Some (partition0 58 decoded)), w).
Proof.
  intros Hs Hne Hascii Hraw Hdecoded.
  unfold clean_username.
  rewrite truthy_nonempty by done. cbn [negb from_option id]. cbv zeta.
  rewrite split_Basic by done. cbn [length Nat.eqb negb].
  unfold bind, item, ret, b64decode, bytes_decode. cbn [lookup list_lookup].
  rewrite bool_decide_true by done. cbn [negb].
  rewrite Hascii. cbv beta iota. rewrite Hraw. unfold ret. cbv beta iota.
  by rewrite Hdecoded.
Qed.

(** C2, at a header that carries a realm: the decoded credentials are
    [alice@EXAMPLE.ORG:x]; the user name returned keeps the realm, where
    the remote-user backend returns [alice] for the same identity. *)
Theorem header_username_keeps_realm w :
  clean_username (Some (str "Basic YWxpY2VARVhBTVBMRS5PUkc6eA==")) w =
    (Ret (Some (str "alice@EXAMPLE.ORG")), w)
  ∧ RemoteUserAuthenticationBackend.clean_username (str "alice@EXAMPLE.ORG") = str "alice".
Proof.
  split; [|by vm_compute].
  apply (clean_username_usable (str "YWxpY2VARVhBTVBMRS5PUkc6eA==")
           (str "alice@EXAMPLE.ORG:x") (str "alice@EXAMPLE.ORG:x")); by vm_compute.
Qed.

End header_backend.

(** ** The LDAP backend *)

(** One step of the symbolic run: the rule of the next call, or a case
    distinction on the answer it depends on. *)
Ltac wp_step :=
  lazymatch goal with
  | |- wp (bind _ _) _ => apply wp_bind
  | |- wp (ret _) _ => apply wp_ret
  | |- wp (raise _) _ => apply wp_raise
  | |- wp (try_except _ _) _ => apply wp_try_except
  | |- wp (getitem _ _) _ => apply wp_getitem
  | |- wp (item _ _) _ => apply wp_item
  | |- wp (new_Tls _) _ => apply wp_new_Tls
  | |- wp (new_Server _ _ _ _) _ => apply wp_new_Server
  | |- wp (new_Connection _ _ _ _ _) _ => apply wp_new_Connection; cbv zeta
  | |- wp (Connection_search _ _ _ _) _ => apply wp_Connection_search
  | |- wp (Connection_unbind _) _ => apply wp_Connection_unbind
  | |- wp (entry_dn _) _ => apply wp_entry_dn
  | |- wp (auth_logger_debug _) _ => apply wp_auth_logger_debug
  | |- wp (auth_logger_warning _) _ => apply wp_auth_logger_warning
  | |- wp (if negb ?b then _ else _) _ => destruct b eqn:?
  | |- wp (if ?b then _ else _) _ => destruct b eqn:?
  | |- wp (match ?x with _ => _ end) _ => destruct x eqn:?
  | |- match ?x with _ => _ end => destruct x eqn:?
  end.

Ltac wp_go := repeat (cbv beta iota; cbn [lookup list_lookup negb]; wp_step).

Section ldap_backend.
Context `{Environment}.
Import LDAPAuthenticationBackend.

Ltac unfold_round :=
  cbv beta iota zeta delta
    [try_server try_body search_for_user server_accepts bind_user_of matching_entry
     lookup_answer search_connection search_filter_of Server_of auto_bind_of
     server_tls fst snd
     cfg_url cfg_port cfg_use_ssl cfg_bind_as_authentication cfg_domain cfg_certificate
     cfg_bind_username cfg_bind_password cfg_search_username_field cfg_search_attribute
     cfg_base_dn].


Ltac unfold_round_in_all :=
  cbv beta iota zeta delta
    [lookup_answer search_connection search_filter_of Server_of auto_bind_of
     server_tls no_results_message fmt
     cfg_url cfg_port cfg_use_ssl cfg_bind_as_authentication cfg_domain cfg_certificate
     cfg_bind_username cfg_bind_password cfg_search_username_field cfg_search_attribute
     cfg_base_dn] in *.

(** One round on a well-formed descriptor, run symbolically: every
    operation goes to the server's [url]; the round leaves the loop with the
    success logged exactly when the server accepts, and otherwise leaves one
    line in [errors], the no-results line when the search found nothing. *)
Lemma try_server_wp username password server :
  well_formed server →
  wp (try_server username password server [])
    (λ r evs lg,
       Forall (λ ev, event_host ev = cfg_url server) evs ∧
       if server_accepts username password server
       then r = Ret (Break, []) ∧ lg = [(DEBUG, success_message username server)]
       else ∃ msg, r = Ret (Continue, [msg]) ∧ lg = [] ∧
                   (lookup_fails username server → msg = no_results_message username server)).
Proof.
  intros [[url Hurl] Hbase].
  destruct server as [u po ssl baa dom cert bu bp suf sa bdn]; simpl in *.
  subst u.
  (* the user binds directly, or is searched for under a base_dn *)
  assert (default true baa = true ∨ baa = Some false ∧ ∃ b, bdn = Some b)
    as [Hbaa|[-> [b ->]]].
  { destruct baa as [[|]|]; [by left| |by left].
    right. split; [done|]. by destruct Hbase as [b ->]; eauto. }
  all: unfold_round; rewrite ?Hbaa; cbn [from_option id negb].
  all: wp_go.
  (* the operations, then the verdict *)
  all: split; [simpl; repeat constructor|].
  all: try (split; reflexivity).
  (* a referral has no attribute *)
  all: try (match goal with
            | Hb : bool_decide (_ ∈ entry_attributes searchResRef) = true |- _ =>
                apply bool_decide_eq_true in Hb; simpl in Hb; by apply elem_of_nil in Hb
            end).
  (* the line left in errors, against the answers lookup_fails records *)
  all: eexists; (split; [reflexivity|]); (split; [reflexivity|]); intros Hlf.
  all: destruct Hlf
         as (url' & base_dn & Hu & Hb & Hbaa' & Htls & Hsrv & Hbind & Hsearch & Hunbind).
  all: unfold_round_in_all; simplify_eq.
  all: try congruence.
  all: try reflexivity.
  all: destruct Hsearch as [Hs|(first' & rest' & Hs & Hnot)]; try congruence.
  all: match goal with
       | Ha : search_answer_of _ _ _ _ = _, Hb : search_answer_of _ _ _ _ = _ |- _ =>
           rewrite Ha in Hb
       end.
  all: simplify_eq; try reflexivity.
  all: match goal with Hb : bool_decide _ = true |- _ => apply bool_decide_eq_true in Hb end.
  all: done.
Qed.



(** [errors] is only ever appended to. *)
Lemma bind_with_errors {B} errors (m : M B) (k k0 : B → M (loop_exit * list pystr)) w :
  (∀ b w', k b w' = (with_errors errors (k0 b w').1, (k0 b w').2)) →
  bind m k w = (with_errors errors (bind m k0 w).1, (bind m k0 w).2).
Proof. intros Hk. unfold bind. destruct (m w) as [[b|e] w']; [apply Hk|done]. Qed.

Lemma try_body_errors username password server errors w :
  try_body username password server errors w =
    (with_errors errors (try_body username password server [] w).1,
     (try_body username password server [] w).2).
Proof.
  unfold try_body. cbv zeta.
  repeat (apply bind_with_errors; intros ? ?).
  destruct b2 as [msg|ldap_bind_user]; [done|].
  repeat (apply bind_with_errors; intros ? ?).
  unfold ret. simpl. by rewrite app_nil_r.
Qed.

Lemma try_server_errors username password server errors w :
  try_server username password server errors w =
    (with_errors errors (try_server username password server [] w).1,
     (try_server username password server [] w).2).
Proof.
  unfold try_server, try_except. rewrite try_body_errors.
  destruct (try_body username password server [] w) as [[[exit new]|e] w']; simpl; [done|].
  destruct e; simpl; try done.
  all: unfold bind, getitem; by destruct (cfg_url server).
Qed.

(** One round of the loop on a well-formed descriptor: it leaves the loop
    exactly when the server accepts the user's bind, and otherwise appends
    one line to [errors]; in both cases it adds its operations to the trace. *)
Lemma try_server_spec username password server errors w :
  well_formed server →
  try_server username password server errors w =
    if server_accepts username password server
    then (Ret (Break, errors),
          extend (contacts username password server)
            [(DEBUG, success_message username server)] w)
    else (Ret (Continue, errors ++ [failure_message username password server]),
          extend (contacts username password server) [] w).
Proof.
  intros Hwf. rewrite try_server_errors.
  destruct (wp_run _ _ w (try_server_wp username password server Hwf)) as [[_ HQ] Hw].
  unfold contacts, failure_message, round. rewrite Hw in HQ |- *. simpl in *.
  destruct (server_accepts username password server).
  - destruct HQ as [-> ->]. simpl. by rewrite app_nil_r.
  - destruct HQ as (msg & -> & -> & _). done.
Qed.

Lemma contacts_host username password server ev :
  well_formed server → ev ∈ contacts username password server →
  event_host ev = cfg_url server.
Proof.
  intros Hwf Hev.
  destruct (wp_run _ _ pristine (try_server_wp username password server Hwf)) as [[HQ _] _].
  rewrite Forall_forall in HQ. by apply HQ.
Qed.

Lemma lookup_fails_not_accepted username password server :
  lookup_fails username server → server_accepts username password server = false.
Proof.
  intros (url & base_dn & Hu & Hb & Hbaa & Htls & Hsrv & Hbind & Hsearch & Hunbind).
  unfold server_accepts, bind_user_of. rewrite Hu, Hbaa, Hb. simpl.
  rewrite Htls, Hsrv, Hbind.
  destruct Hsearch as [->|(first & rest & -> & Hnot)]; simpl; [done|].
  by rewrite bool_decide_false.
Qed.

Lemma lookup_fails_message username password server :
  well_formed server → lookup_fails username server →
  failure_message username password server = no_results_message username server.
Proof.
  intros Hwf Hlf.
  destruct (wp_run _ _ pristine (try_server_wp username password server Hwf)) as [[_ HQ] _].
  rewrite (lookup_fails_not_accepted _ password _ Hlf) in HQ.
  destruct HQ as (msg & Hr & _ & Hmsg).
  unfold failure_message, round. rewrite Hr. by apply Hmsg.
Qed.

(** The line a refused or failed bind as the user leaves in [errors], for
    a server the user binds to directly. *)
Lemma failure_message_direct_bind username password server url :
  cfg_url server = Some url →
  default true (cfg_bind_as_authentication server) = true →
  Tls_fault (mkTls (cfg_certificate server)) = None →
  Server_fault (Server_of server url) = None →
  failure_message username password server =
    match bind_answer_of
            (mkConnection (Server_of server url)
               (Some (if truthy (cfg_domain server)
                      then fmt (cfg_domain server) ++ [92] ++ username else username))
               (Some password) (auto_bind_of server) SIMPLE) with
    | BindRefused msg =>
        str "User " ++ username ++ str " attempted to authenticate with LDAP (" ++ url ++
        str "), but entered an incorrect password. The user was denied access: " ++ msg
    | BindFault msg =>
        str "User " ++ username ++ str " attempted to authenticate with LDAP (" ++ url ++
        str "), but an error occurred. The user was denied access: " ++ msg
    | Bound => failure_message username password server
    end.
Proof.
  intros Hurl Hdirect Htls Hsrv. unfold Server_of, auto_bind_of in *.
  destruct (bind_answer_of _) as [|msg|msg] eqn:Hbind; [done| |].
  all: unfold failure_message, round, try_server.
  all: erewrite try_except_Raise; last first.
  1,3: unfold try_body; cbv zeta;
       erewrite bind_Ret by (unfold new_Tls; cbv zeta; rewrite Htls; reflexivity);
       rewrite Hurl;
       erewrite bind_Ret by reflexivity;
       erewrite bind_Ret by (unfold new_Server; cbv zeta; rewrite Hsrv; reflexivity);
       rewrite Hdirect; cbn [negb];
       erewrite bind_Ret by reflexivity;
       cbv beta iota;
       erewrite bind_Raise; [reflexivity|];
       unfold new_Connection; cbv zeta; rewrite Hbind; reflexivity.
  all: cbv beta iota; rewrite Hurl; reflexivity.
Qed.

Lemma first_accepting_Some username password servers before server :
  first_accepting username password servers = Some (before, server) →
  (∃ after, servers = before ++ server :: after) ∧
  Forall (λ s, server_accepts username password s = false) before ∧
  server_accepts username password server = true.
Proof.
  revert before. induction servers as [|s servers IH]; intros before; simpl; [done|].
  destruct (server_accepts username password s) eqn:Hs.
  - intros [= <- <-]. split; [by exists servers|]. split; [constructor|done].
  - destruct (first_accepting username password servers) as [[before' s']|]; [|done].
    intros [= <- <-]. destruct (IH before' eq_refl) as ([after ->] & Hbefore & Hacc).
    split; [by exists after|]. split; [by constructor|done].
Qed.

Lemma first_accepting_None username password servers :
  first_accepting username password servers = None →
  Forall (λ s, server_accepts username password s = false) servers.
Proof.
  induction servers as [|s servers IH]; simpl; [constructor|].
  destruct (server_accepts username password s) eqn:Hs; [done|].
  destruct (first_accepting username password servers) as [[before' s']|]; [done|].
  intros _. constructor; [done|]. by apply IH.
Qed.

(** The loop visits the servers in order and stops at the first one that
    accepts. *)
Lemma for_servers_spec username password servers errors w :
  Forall well_formed servers →
  for_servers username password servers errors w =
    match first_accepting username password servers with
    | Some (before, server) =>
        (Ret (true, errors ++ (failure_message username password <$> before)),
         extend (concat (contacts username password <$> before ++ [server]))
           [(DEBUG, success_message username server)] w)
    | None =>
        (Ret (false, errors ++ (failure_message username password <$> servers)),
         extend (concat (contacts username password <$> servers)) [] w)
    end.
Proof.
  intros Hwf. revert errors w.
  induction Hwf as [|s servers Hs Hwf IH]; intros errors w; simpl.
  { unfold ret. by rewrite app_nil_r, extend_nil. }
  unfold bind. rewrite try_server_spec by done.
  destruct (server_accepts username password s); simpl.
  { unfold ret. by rewrite !app_nil_r. }
  rewrite IH.
  destruct (first_accepting username password servers) as [[before server]|]; simpl.
  - by rewrite extend_extend, <-app_assoc.
  - by rewrite extend_extend, <-app_assoc.
Qed.

Lemma warn_all_spec errors w :
  warn_all errors w = (Ret (), extend [] ((λ msg, (WARNING, msg)) <$> errors) w).
Proof.
  revert w. induction errors as [|msg errors IH]; intros w; simpl.
  { unfold ret. by rewrite extend_nil. }
  unfold bind, auth_logger_warning. by rewrite IH, add_log_extend, extend_extend.
Qed.

End ldap_backend.

Example demo_round_searched :
  @round demo.ldap_site (str "alice") (str "secret") demo.searched_server
  = (Ret (LDAPAuthenticationBackend.Continue,
          [@no_results_message (str "alice") demo.searched_server]),
     mkWorld ∅ []
       (let c := @search_connection demo.searched_server
                   (Server_of demo.searched_server (str "ldap1.example.org")) in
        [LdapBind c;
         LdapSearch c (str "dc=example,dc=org") (str "(uid=alice)") [str "cn"];
         LdapUnbind c])
       None None).
Proof. vm_compute. reflexivity. Qed.

Example demo_accepts :
  @server_accepts demo.ldap_site (str "alice") (str "secret") demo.domain_server = true
  ∧ @server_accepts demo.ldap_site (str "alice") (str "wrong") demo.domain_server = false
  ∧ @server_accepts demo.ldap_site (str "alice") (str "secret") demo.searched_server = false.
Proof. vm_compute. done. Qed.

Example demo_lookup : demo.user_table !! str "alice" = Some demo.alice.
Proof. vm_compute. reflexivity. Qed.

Section ldap_claims.
Context `{Environment}.
Import LDAPAuthenticationBackend.

(** C8.  When the user name or the password is missing or empty, the LDAP
    backend returns [None] at once: no exception is raised, the [User] table
    is not queried, no directory server is contacted and nothing is logged;
    the only effect is the decorator's mark on the request. *)
Theorem ldap_missing_credentials request username password w :
  truthy username = false ∨ truthy password = false →
  authenticate request username password w =
    (Ret None, set_sensitive [str "password"] w)
  ∧ trace (authenticate request username password w).2 = trace w
  ∧ log (authenticate request username password w).2 = log w.
Proof.
  intros Hmissing.
  assert (authenticate request username password w =
            (Ret None, set_sensitive [str "password"] w)) as ->.
  { unfold authenticate, sensitive_post_parameters.
    destruct Hmissing as [->| ->]; simpl; [done|].
    by rewrite orb_true_r. }
  done.
Qed.

(** What [authenticate] does once the credentials are present, the user is
    known and active: the loop decides. *)
Lemma authenticate_known_user request username password user w :
  username ≠ [] → password ≠ [] →
  users w !! username = Some user → is_active user = true →
  authenticate request (Some username) (Some password) w =
    let w1 := add_event (DbGet (Some username)) (set_sensitive [str "password"] w) in
    match for_servers username password LDAP_SERVERS [] w1 with
    | (Ret (true, _), w2) => (Ret (Some user), w2)
    | (Ret (false, errors), w2) => (Ret None, (warn_all errors w2).2)
    | (Raise e, w2) => (Raise e, w2)
    end.
Proof.
  intros Hu Hp Huser Hactive.
  unfold authenticate, sensitive_post_parameters.
  rewrite !truthy_nonempty by done. cbn [negb orb from_option id]. cbv zeta.
  erewrite bind_Ret; last first.
  { apply try_except_Ret, User_objects_get_Some. exact Huser. }
  rewrite Hactive. cbn [negb].
  erewrite bind_Ret by reflexivity.
  unfold bind at 1.
  destruct (for_servers _ _ _ _ _) as [[[[|] errors]|e] w2]; cbn [fst snd]; try done.
  unfold bind. rewrite warn_all_spec. done.
Qed.

(** The whole of [authenticate] for such a user over well-formed
    descriptors. *)
Lemma authenticate_spec request username password user w :
  username ≠ [] → password ≠ [] →
  users w !! username = Some user → is_active user = true →
  Forall well_formed LDAP_SERVERS →
  authenticate request (Some username) (Some password) w =
    match first_accepting username password LDAP_SERVERS with
    | Some (before, server) =>
        (Ret (Some user),
         extend
           (DbGet (Some username) ::
            concat (contacts username password <$> before ++ [server]))
           [(DEBUG, success_message username server)]
           (set_sensitive [str "password"] w))
    | None =>
        (Ret None,
         extend
           (DbGet (Some username) :: concat (contacts username password <$> LDAP_SERVERS))
           ((λ s, (WARNING, failure_message username password s)) <$> LDAP_SERVERS)
           (set_sensitive [str "password"] w))
    end.
Proof.
  intros Hu Hp Huser Hactive Hwf.
  rewrite (authenticate_known_user request username password user w) by done.
  cbv zeta. rewrite for_servers_spec by done.
  destruct (first_accepting username password LDAP_SERVERS) as [[before server]|].
  - by rewrite add_event_extend, extend_extend.
  - cbn [fst snd]. rewrite warn_all_spec. cbn [fst snd].
    rewrite add_event_extend, !extend_extend, app_nil_r. cbn [app].
    by rewrite <-list_fmap_compose.
Qed.

(** C1.  For a user who reaches the directory (credentials present, known
    and active) and well-formed server descriptors, the servers are tried in
    the configured order: the operations added to the trace are those of
    the servers one after the other, each addressed to its own [url].  The
    first server that accepts the user's bind ends the evaluation, the user
    object is returned and no later server is contacted; when no server
    accepts, every server has been tried in order and the result is [None]. *)
Theorem ldap_first_accepting_server_wins request username password user w :
  username ≠ [] → password ≠ [] →
  users w !! username = Some user → is_active user = true →
  Forall well_formed LDAP_SERVERS →
  (∀ server ev, server ∈ LDAP_SERVERS → ev ∈ contacts username password server →
                event_host ev = cfg_url server) ∧
  match first_accepting username password LDAP_SERVERS with
  | Some (before, server) =>
      (∃ after, LDAP_SERVERS = before ++ server :: after) ∧
      Forall (λ s, server_accepts username password s = false) before ∧
      server_accepts username password server = true ∧
      authenticate request (Some username) (Some password) w =
        (Ret (Some user),
         extend
           (DbGet (Some username) ::
            concat (contacts username password <$> before ++ [server]))
           [(DEBUG, success_message username server)]
           (set_sensitive [str "password"] w))
  | None =>
      Forall (λ s, server_accepts username password s = false) LDAP_SERVERS ∧
      authenticate request (Some username) (Some password) w =
        (Ret None,
         extend
           (DbGet (Some username) :: concat (contacts username password <$> LDAP_SERVERS))
           ((λ s, (WARNING, failure_message username password s)) <$> LDAP_SERVERS)
           (set_sensitive [str "password"] w))
  end.
Proof.
  intros Hu Hp Huser Hactive Hwf. split.
  { intros server ev Hin. apply contacts_host. rewrite Forall_forall in Hwf. by apply Hwf. }
  rewrite (authenticate_spec request username password user w) by done.
  destruct (first_accepting username password LDAP_SERVERS) as [[before server]|] eqn:Hfirst.
  - destruct (first_accepting_Some _ _ _ _ _ Hfirst) as (Hsplit & Hbefore & Hacc). done.
  - split; [by apply first_accepting_None|done].
Qed.

(** C3, as the code has it.  When a server is reached (no server before it
    accepted) and its privileged search gives no matching entry, one line for
    that failure is appended to [errors] and the loop goes on with the
    servers after it.  The line reaches the log, as a warning, when no
    server after it accepts either; when a later server accepts, the user is
    returned and only the success is logged. *)
Theorem ldap_lookup_failure_continues request username password user w
    before server after :
  username ≠ [] → password ≠ [] →
  users w !! username = Some user → is_active user = true →
  Forall well_formed LDAP_SERVERS →
  LDAP_SERVERS = before ++ server :: after →
  Forall (λ s, server_accepts username password s = false) before →
  lookup_fails username server →
  (∀ errors w',
     for_servers username password (server :: after) errors w' =
     for_servers username password after
       (errors ++ [no_results_message username server])
       (extend (contacts username password server) [] w')) ∧
  match first_accepting username password after with
  | None =>
      (authenticate request (Some username) (Some password) w).1 = Ret None ∧
      log (authenticate request (Some username) (Some password) w).2 =
        log w
        ++ ((λ s, (WARNING, failure_message username password s)) <$> before)
        ++ (WARNING, no_results_message username server)
        :: ((λ s, (WARNING, failure_message username password s)) <$> after)
  | Some (_, accepting) =>
      (authenticate request (Some username) (Some password) w).1 = Ret (Some user) ∧
      log (authenticate request (Some username) (Some password) w).2 =
        log w ++ [(DEBUG, success_message username accepting)]
  end.
Proof.
  intros Hu Hp Huser Hactive Hwf Hsplit Hbefore Hfails.
  assert (Hwf' := Hwf). rewrite Hsplit in Hwf'.
  apply Forall_app in Hwf' as [Hwfb Hwfs]. apply Forall_cons in Hwfs as [Hwfs Hwfa].
  pose proof (lookup_fails_not_accepted _ password _ Hfails) as Hno.
  pose proof (lookup_fails_message _ password _ Hwfs Hfails) as Hmsg.
  split.
  { intros errors w'. simpl. unfold bind. rewrite try_server_spec by done.
    rewrite Hno. simpl. by rewrite Hmsg. }
  assert (first_accepting username password LDAP_SERVERS =
            match first_accepting username password after with
            | Some (b, a) => Some (before ++ server :: b, a)
            | None => None
            end) as Hfirst.
  { rewrite Hsplit. clear Hsplit Hwf Hwfb.
    induction Hbefore as [|s before Hs Hbefore IH]; simpl.
    - by rewrite Hno.
    - rewrite Hs, IH. by destruct (first_accepting username password after) as [[? ?]|]. }
  rewrite (authenticate_spec request username password user w) by done.
  rewrite Hfirst.
  destruct (first_accepting username password after) as [[b accepting]|].
  - done.
  - cbn [fst snd extend log]. split; [done|].
    rewrite Hsplit, fmap_app, fmap_cons, Hmsg. done.
Qed.

End ldap_claims.

(** ** The login view *)

Section login_view.
Context `{Environment}.


Lemma method_POST_allowed request :
  method request = str "POST" →
  bool_decide (method request ∈ [str "GET"; str "POST"]) = true ∧
  bool_decide (method request = str "GET") = false.
Proof. intros ->. vm_compute. done. Qed.

(** A POST that gets past the first statement is answered after the outcome
    of [authenticate]. *)
Lemma login_user_post request w :
  method request = str "POST" → form_is_served request = true →
  login_user request w =
    match authenticate request
            (QueryDict_get (str "username") [] (POST request))
            (QueryDict_get (str "password") [] (POST request))
            (set_sensitive [str "password"] w) with
    | (Ret (Some user), w1) =>
        (Ret (HttpResponseRedirect (redirect_target request)), set_session (Some user) w1)
    | (Ret None, w1) => (Ret (login_page true), w1)
    | (Raise DoesNotExist, w1) | (Raise (InactiveUserError _), w1) =>
        (Ret authorization_failed_page, w1)
    | (Raise e, w1) => (Raise e, w1)
    end.
Proof.
  intros Hpost Hform.
  destruct (method_POST_allowed request Hpost) as [Hallowed Hget].
  unfold login_user, require_http_methods, sensitive_post_parameters.
  rewrite Hallowed.
  unfold form_is_served, fallback_backends in Hform.
  erewrite bind_Ret with (a := None); last first.
  { destruct (bool_decide _ || bool_decide _); [|done].
    cbn [negb orb] in Hform. apply andb_true_iff in Hform as [Hanon Hfb].
    apply negb_true_iff in Hanon as ->. apply negb_true_iff in Hfb as ->. done. }
  cbv beta iota zeta. rewrite Hget.
  unfold try_except at 1, bind at 1, bind at 1.
  destruct (authenticate _ _ _ _) as [[[user|]|e] w1]; cbn [fst snd].
  - unfold bind at 1 2, login. unfold ret. cbn [fst snd].
    unfold redirect_target, try_except, bind, QueryDict_getitem, resolve.
    destruct (QueryDict_last REDIRECT_FIELD_NAME (GET request)) as [next_page|]; [|done].
    unfold ret. by destruct (resolves next_page).
  - done.
  - destruct e; try done.
Qed.


Lemma ldap_unknown_user request username password w :
  username ≠ [] → password ≠ [] → users w !! username = None →
  LDAPAuthenticationBackend.authenticate request (Some username) (Some password) w =
    (Raise DoesNotExist,
     extend [DbGet (Some username)] [(WARNING, unknown_user_message username)]
       (set_sensitive [str "password"] w)).
Proof.
  intros Hu Hp Huser.
  unfold LDAPAuthenticationBackend.authenticate, sensitive_post_parameters.
  rewrite !truthy_nonempty by done. cbn [negb orb from_option id]. cbv zeta.
  erewrite bind_Raise; [reflexivity|].
  erewrite try_except_Raise by (by apply User_objects_get_None).
  unfold bind, auth_logger_warning, raise.
  by rewrite add_event_extend, add_log_extend, extend_extend.
Qed.

Lemma ldap_inactive_user request username password user w :
  username ≠ [] → password ≠ [] →
  users w !! username = Some user → is_active user = false →
  LDAPAuthenticationBackend.authenticate request (Some username) (Some password) w =
    (Raise (InactiveUserError username),
     extend [DbGet (Some username)] [(WARNING, inactive_user_message username)]
       (set_sensitive [str "password"] w)).
Proof.
  intros Hu Hp Huser Hinactive.
  unfold LDAPAuthenticationBackend.authenticate, sensitive_post_parameters.
  rewrite !truthy_nonempty by done. cbn [negb orb from_option id]. cbv zeta.
  erewrite bind_Ret; last first.
  { apply try_except_Ret, User_objects_get_Some. exact Huser. }
  rewrite Hinactive. cbn [negb].
  erewrite bind_Raise; [reflexivity|].
  unfold bind, auth_logger_warning, raise.
  by rewrite add_event_extend, add_log_extend, extend_extend.
Qed.

Lemma filter_no_fallback (backends : list pystr) :
  (∀ backend, backend ∈ backends →
     backend = RemoteUser_path ∨ backend = NginxHeader_path) →
  filter (λ backend, backend ∉ [RemoteUser_path; NginxHeader_path]) backends = [].
Proof.
  induction backends as [|b backends IH]; intros Hall; [done|].
  rewrite filter_cons_False.
  - apply IH. intros b' Hb'. apply Hall. by right.
  - intros Hnot. apply Hnot. destruct (Hall b) as [->| ->]; [by left| |].
    + by left.
    + right. by left.
Qed.

(** C5.  When the settings name the remote-user or the header backend and
    no other backend, a GET or POST request of a user who is not
    authenticated is answered with the authorization-failed page: the login
    form is not rendered, no backend is asked and nothing is logged. *)
Theorem login_rejected_without_fallback request w :
  method request ∈ [str "GET"; str "POST"] →
  RemoteUser_path ∈ AUTHENTICATION_BACKENDS ∨ NginxHeader_path ∈ AUTHENTICATION_BACKENDS →
  user_is_authenticated request = false →
  (∀ backend, backend ∈ AUTHENTICATION_BACKENDS →
     backend = RemoteUser_path ∨ backend = NginxHeader_path) →
  login_user request w =
    (Ret (render (str "authorization_failed.html")
            [(str "authorization_failed",
              CStr (get_media_file_contents (str "authorization_failed.html")))]),
     set_sensitive [str "password"] w).
Proof.
  intros Hmethod Hpre Hanon Hall.
  unfold login_user, require_http_methods, sensitive_post_parameters.
  rewrite bool_decide_true by done.
  assert (bool_decide (RemoteUser_path ∈ AUTHENTICATION_BACKENDS)
          || bool_decide (NginxHeader_path ∈ AUTHENTICATION_BACKENDS) = true) as ->.
  { destruct Hpre as [Hpre|Hpre]; rewrite (bool_decide_true _ Hpre); [done|].
    by rewrite orb_true_r. }
  rewrite Hanon, filter_no_fallback by done.
  done.
Qed.

(** C6.  After a successful POST login the user is sent to the [next]
    parameter exactly when it is present and resolves against the URL
    configuration, and to the landing page when it is absent or does not
    resolve. *)
Theorem login_success_redirect request user w w1 :
  method request = str "POST" → form_is_served request = true →
  authenticate request
    (QueryDict_get (str "username") [] (POST request))
    (QueryDict_get (str "password") [] (POST request))
    (set_sensitive [str "password"] w) = (Ret (Some user), w1) →
  ∃ target,
    login_user request w =
      (Ret (HttpResponseRedirect target), set_session (Some user) w1) ∧
    match QueryDict_last REDIRECT_FIELD_NAME (GET request) with
    | Some next_page => target = if resolves next_page then next_page else landing
    | None => target = landing
    end.
Proof.
  intros Hpost Hform Hauth. exists (redirect_target request).
  rewrite login_user_post, Hauth by done. split; [done|].
  unfold redirect_target. by destruct (QueryDict_last _ _).
Qed.


End login_view.

(** ** The remote-user backend *)

Section remote_user_backend.
Import RemoteUserAuthenticationBackend.

(** C10.  The backend sets [create_unknown_user] to [False]: for an
    asserted identity whose cleaned user name has no row, authentication
    fails and the [User] table is left as it was. *)
Theorem remote_user_unknown_not_created request remote_user w :
  users w !! clean_username remote_user = None →
  create_unknown_user = false ∧
  (authenticate request (Some remote_user) w).1 = Ret None ∧
  users (authenticate request (Some remote_user) w).2 = users w.
Proof.
  intros Hunknown. split; [done|].
  unfold authenticate, RemoteUserBackend.authenticate.
  destruct remote_user as [|c remote_user]; [done|].
  cbn [truthy negb from_option id cls_create_unknown_user cls_clean_username cls
       create_unknown_user].
  erewrite bind_Ret; last first.
  { erewrite try_except_Raise by (by apply bind_Raise, User_objects_get_None).
    reflexivity. }
  done.
Qed.

(** Under Django's default, [create_unknown_user = True], the same call
    adds a row. *)
Lemma remote_user_default_creates request (remote_user : pystr) w :
  remote_user ≠ [] → users w !! remote_user = None →
  users (@RemoteUserBackend.authenticate
           {| cls_create_unknown_user := true; cls_clean_username := id |}
           request (Some remote_user) w).2
  = <[remote_user := mkUser remote_user true]> (users w).
Proof.
  intros Hne Hunknown. unfold RemoteUserBackend.authenticate.
  rewrite truthy_nonempty by done.
  cbn [negb from_option id cls_create_unknown_user cls_clean_username].
  unfold bind, RemoteUserBackend.get_or_create. cbv zeta. by rewrite Hunknown.
Qed.

End remote_user_backend.

(** ** The migration *)

Section migration.
Import migrations.

Lemma lookup_field_insert state model_name fields name field m n :
  state !! model_name = Some fields →
  lookup_field (<[model_name := <[name := field]> fields]> state) m n =
    if bool_decide ((m, n) = (model_name, name)) then Some field
    else lookup_field state m n.
Proof.
  intros Hfields. unfold lookup_field.
  destruct (decide (m = model_name)) as [->|Hm].
  - rewrite lookup_insert_eq, Hfields. simpl.
    destruct (decide (n = name)) as [->|Hn].
    + by rewrite lookup_insert_eq, bool_decide_true.
    + rewrite lookup_insert_ne by done. rewrite bool_decide_false; [done|congruence].
  - rewrite lookup_insert_ne by done. rewrite bool_decide_false; [done|congruence].
Qed.

(** C7.  On a project state that has the model with [hide_from_users] and
    without [hide_from_staff], the migration applies; afterwards both flags
    are boolean fields with default [False], every other field of every
    model is as before, and no model is added or removed.  Its operations
    are exactly these two, on two different fields. *)
Theorem migration_adds_two_flags state fields :
  state !! str "landingpagechoice" = Some fields →
  fields !! str "hide_from_staff" = None →
  is_Some (fields !! str "hide_from_users") →
  touches <$> operations =
    [(str "landingpagechoice", str "hide_from_staff");
     (str "landingpagechoice", str "hide_from_users")] ∧
  ∃ state' staff users,
    apply_operations operations state = Some state' ∧
    lookup_field state' (str "landingpagechoice") (str "hide_from_staff") = Some staff ∧
    field_type staff = BooleanField ∧ field_default staff = Some false ∧
    lookup_field state' (str "landingpagechoice") (str "hide_from_users") = Some users ∧
    field_type users = BooleanField ∧ field_default users = Some false ∧
    (∀ m n, (m, n) ≠ (str "landingpagechoice", str "hide_from_staff") →
            (m, n) ≠ (str "landingpagechoice", str "hide_from_users") →
            lookup_field state' m n = lookup_field state m n) ∧
    dom state' = dom state.
Proof.
  intros Hmodel Hstaff [old Husers]. split; [done|].
  assert (str "hide_from_users" ≠ str "hide_from_staff") as Hne by (by vm_compute).
  unfold operations. cbn [apply_operations apply_operation].
  rewrite Hmodel. cbn [mbind option_bind].
  rewrite lookup_insert_eq. cbn [mbind option_bind].
  eexists _, (mkField BooleanField (Some false) _), (mkField BooleanField (Some false) _).
  split; [reflexivity|].
  split; [|split; [reflexivity|split; [reflexivity|]]].
  { rewrite (lookup_field_insert _ _ (<[_ := _]> fields)) by apply lookup_insert_eq.
    rewrite bool_decide_false by congruence.
    rewrite lookup_field_insert by done. by rewrite bool_decide_true. }
  split; [|split; [reflexivity|split; [reflexivity|]]].
  { rewrite (lookup_field_insert _ _ (<[_ := _]> fields)) by apply lookup_insert_eq.
    by rewrite bool_decide_true. }
  split.
  - intros m n Hstaff' Husers'.
    rewrite (lookup_field_insert _ _ (<[_ := _]> fields)) by apply lookup_insert_eq.
    rewrite bool_decide_false by done.
    rewrite lookup_field_insert by done. by rewrite bool_decide_false.
  - rewrite dom_insert_lookup_L by (rewrite lookup_insert_eq; eauto).
    apply dom_insert_lookup_L. eauto.
Qed.

End migration.

(** ** The properties on the deployment *)

Section on_the_deployment.
Import demo.

Lemma demo_first_accepting :
  @first_accepting ldap_site (str "alice") (str "secret") (@LDAP_SERVERS ldap_site)
  = Some ([searched_server], domain_server).
Proof. by vm_compute. Qed.


(** A descriptor without [url] is not well formed: the round raises
    [KeyError], which no handler of the backend catches. *)
Example demo_nameless_server :
  (@LDAPAuthenticationBackend.authenticate (deployment [nameless_server] [LDAP_path])
     (post_login "alice" "secret" []) (Some (str "alice")) (Some (str "secret")) start).1
  = Raise (KeyError (str "url")).
Proof. by vm_compute. Qed.

Example demo_wrong_password :
  @failure_message ldap_site (str "alice") (str "wrong") domain_server =
    str "User alice attempted to authenticate with LDAP (ldap2.example.org), but entered an incorrect password. The user was denied access: invalidCredentials".
Proof. by vm_compute. Qed.

Lemma demo_well_formed : Forall well_formed (@LDAP_SERVERS ldap_site).
Proof. repeat constructor; simpl; eauto; done. Qed.

Lemma demo_lookup_fails : @lookup_fails ldap_site (str "alice") searched_server.
Proof.
  exists (str "ldap1.example.org"), (str "dc=example,dc=org").
  repeat split; try reflexivity. by left.
Qed.

End on_the_deployment.

Lemma ldap_missing_credentials_witness :
  (truthy None = false ∨ truthy (Some (str "secret")) = false) ∧
  @LDAPAuthenticationBackend.authenticate demo.ldap_site
    (demo.post_login "" "secret" []) None (Some (str "secret")) demo.start
  = (Ret None, set_sensitive [str "password"] demo.start).
Proof.
  split; [by left|].
  exact (proj1 (@ldap_missing_credentials demo.ldap_site
                  (demo.post_login "" "secret" []) None (Some (str "secret")) demo.start
                  (or_introl eq_refl))).
Defined.

Lemma ldap_first_accepting_server_wins_witness :
  (str "alice" ≠ [] ∧ str "secret" ≠ [] ∧
   users demo.start !! str "alice" = Some demo.alice ∧ is_active demo.alice = true ∧
   Forall well_formed (@LDAP_SERVERS demo.ldap_site)) ∧
  (@LDAPAuthenticationBackend.authenticate demo.ldap_site
     (demo.post_login "alice" "secret" []) (Some (str "alice")) (Some (str "secret"))
     demo.start).1 = Ret (Some demo.alice).
Proof.
  assert (str "alice" ≠ []) as Hu by (by vm_compute).
  assert (str "secret" ≠ []) as Hp by (by vm_compute).
  assert (users demo.start !! str "alice" = Some demo.alice) as Huser by (by vm_compute).
  split; [by eauto using demo_well_formed|].
  pose proof (@ldap_first_accepting_server_wins demo.ldap_site
                (demo.post_login "alice" "secret" []) (str "alice") (str "secret")
                demo.alice demo.start Hu Hp Huser eq_refl demo_well_formed) as Hmain.
  destruct Hmain as [_ Hmain]. rewrite demo_first_accepting in Hmain.
  destruct Hmain as (_ & _ & _ & Hauth). exact (f_equal fst Hauth).
Defined.

Lemma ldap_lookup_failure_continues_witness :
  (@LDAPAuthenticationBackend.authenticate demo.ldap_site
     (demo.post_login "alice" "wrong" []) (Some (str "alice")) (Some (str "wrong"))
     demo.start).1 = Ret None ∧
  log (@LDAPAuthenticationBackend.authenticate demo.ldap_site
         (demo.post_login "alice" "wrong" []) (Some (str "alice")) (Some (str "wrong"))
         demo.start).2 =
    [(WARNING, @no_results_message (str "alice") demo.searched_server);
     (WARNING, @failure_message demo.ldap_site (str "alice") (str "wrong") demo.domain_server)].
Proof.
  assert (str "alice" ≠ []) as Hu by (by vm_compute).
  assert (str "wrong" ≠ []) as Hp by (by vm_compute).
  assert (users demo.start !! str "alice" = Some demo.alice) as Huser by (by vm_compute).
  pose proof (@ldap_lookup_failure_continues demo.ldap_site
                (demo.post_login "alice" "wrong" []) (str "alice") (str "wrong")
                demo.alice demo.start [] demo.searched_server [demo.domain_server]
                Hu Hp Huser eq_refl demo_well_formed eq_refl (Forall_nil_2 _)
                demo_lookup_fails) as [_ Hmain].
  change (first_accepting (str "alice") (str "wrong") [demo.domain_server])
    with (@None (list ldap_server * ldap_server)) in Hmain.
  exact Hmain.
Defined.

(** C3 as the spec states it fails on the deployment: the search of the
    first server finds no entry for [alice], the second server accepts her,
    and the log then holds the success line only. *)
Lemma ldap_lookup_failure_unlogged :
  demo.searched_server ∈ @LDAP_SERVERS demo.ldap_site ∧
  @lookup_fails demo.ldap_site (str "alice") demo.searched_server ∧
  (@LDAPAuthenticationBackend.authenticate demo.ldap_site
     (demo.post_login "alice" "secret" []) (Some (str "alice")) (Some (str "secret"))
     demo.start).1 = Ret (Some demo.alice) ∧
  log (@LDAPAuthenticationBackend.authenticate demo.ldap_site
         (demo.post_login "alice" "secret" []) (Some (str "alice")) (Some (str "secret"))
         demo.start).2 =
    [(DEBUG, @success_message (str "alice") demo.domain_server)].
Proof.
  split; [by left|]. split; [exact demo_lookup_fails|]. by vm_compute.
Qed.



Lemma login_rejected_without_fallback_witness :
  (method demo.get_login ∈ [str "GET"; str "POST"] ∧
   RemoteUser_path ∈ @AUTHENTICATION_BACKENDS demo.kerberos_site ∧
   user_is_authenticated demo.get_login = false) ∧
  (@login_user demo.kerberos_site demo.get_login demo.start).1
  = Ret (@authorization_failed_page demo.kerberos_site).
Proof.
  assert (method demo.get_login ∈ [str "GET"; str "POST"]) as Hmethod by (by left).
  assert (RemoteUser_path ∈ @AUTHENTICATION_BACKENDS demo.kerberos_site) as Hin by (by left).
  assert (∀ backend, backend ∈ @AUTHENTICATION_BACKENDS demo.kerberos_site →
            backend = RemoteUser_path ∨ backend = NginxHeader_path) as Hall.
  { intros backend [->|[->|Hin']%elem_of_cons]%elem_of_cons; [by left|by right|].
    by apply elem_of_nil in Hin'. }
  split; [done|].
  exact (f_equal fst (@login_rejected_without_fallback demo.kerberos_site demo.get_login
                        demo.start Hmethod (or_introl Hin) eq_refl Hall)).
Defined.

Lemma login_success_redirect_witness :
  (@login_user demo.ldap_site
     (demo.post_login "alice" "secret" [(str "next", str "/calendar/")]) demo.start).1
  = Ret (HttpResponseRedirect (str "/calendar/")) ∧
  (@login_user demo.ldap_site
     (demo.post_login "alice" "secret" [(str "next", str "/elsewhere/")]) demo.start).1
  = Ret (HttpResponseRedirect (str "/")).
Proof.
  split.
  - destruct (@login_success_redirect demo.ldap_site
                (demo.post_login "alice" "secret" [(str "next", str "/calendar/")])
                demo.alice demo.start _ eq_refl eq_refl (surjective_pairing _))
      as (target & Hlogin & Htarget).
    vm_compute in Htarget. subst target. exact (f_equal fst Hlogin).
  - destruct (@login_success_redirect demo.ldap_site
                (demo.post_login "alice" "secret" [(str "next", str "/elsewhere/")])
                demo.alice demo.start _ eq_refl eq_refl (surjective_pairing _))
      as (target & Hlogin & Htarget).
    vm_compute in Htarget. subst target. exact (f_equal fst Hlogin).
Defined.

Lemma header_unusable_denied_witness :
  unusable_header (META demo.bearer_request !! str "HTTP_AUTHORIZATION") ∧
  (NginxKerberosAuthorizationHeaderAuthenticationBackend.authenticate
     demo.bearer_request None None demo.start).1 = Ret None.
Proof.
  assert (unusable_header (META demo.bearer_request !! str "HTTP_AUTHORIZATION")) as Hheader.
  { change (unusable_header (Some (str "Bearer abc"))). right. right. by vm_compute. }
  split; [done|].
  exact (f_equal fst (proj2 (header_unusable_denied demo.bearer_request None None
                               demo.start Hheader))).
Defined.

Lemma remote_user_unknown_not_created_witness :
  users demo.start
    !! RemoteUserAuthenticationBackend.clean_username (str "mallory@EXAMPLE.ORG") = None ∧
  (RemoteUserAuthenticationBackend.authenticate demo.get_login
     (Some (str "mallory@EXAMPLE.ORG")) demo.start).1 = Ret None ∧
  users (RemoteUserAuthenticationBackend.authenticate demo.get_login
           (Some (str "mallory@EXAMPLE.ORG")) demo.start).2 = demo.user_table.
Proof.
  assert (users demo.start
            !! RemoteUserAuthenticationBackend.clean_username (str "mallory@EXAMPLE.ORG")
          = None) as Hunknown by (by vm_compute).
  split; [done|].
  exact (proj2 (remote_user_unknown_not_created demo.get_login (str "mallory@EXAMPLE.ORG")
                  demo.start Hunknown)).
Defined.

Lemma migration_adds_two_flags_witness :
  (demo.state_0039 !! str "landingpagechoice" = Some demo.landingpagechoice_0039 ∧
   demo.landingpagechoice_0039 !! str "hide_from_staff" = None ∧
   is_Some (demo.landingpagechoice_0039 !! str "hide_from_users")) ∧
  is_Some (migrations.apply_operations migrations.operations demo.state_0039).
Proof.
  assert (demo.state_0039 !! str "landingpagechoice" = Some demo.landingpagechoice_0039)
    as Hmodel by (by vm_compute).
  assert (demo.landingpagechoice_0039 !! str "hide_from_staff" = None)
    as Hstaff by (by vm_compute).
  assert (is_Some (demo.landingpagechoice_0039 !! str "hide_from_users"))
    as Husers by (by vm_compute; eauto).
  split; [done|].
  destruct (migration_adds_two_flags demo.state_0039 demo.landingpagechoice_0039
              Hmodel Hstaff Husers) as (_ & state' & _ & _ & Happly & _).
  rewrite Happly. by eexists.
Defined.

(** * Further properties of the module *)

(** ** [str.partition] as the backends use it *)

Lemma partition_spec sep s :
  let '(before, mid, after) := partition sep s in
  s = before ++ mid ++ after ∧ (sep ∉ before) ∧
  (mid = [sep] ∨ mid = [] ∧ after = []).
Proof.
  induction s as [|c s IH]; simpl.
  { split; [done|]. split; [apply not_elem_of_nil|by right]. }
  destruct (N.eqb_spec c sep) as [->|Hne].
  { split; [done|]. split; [apply not_elem_of_nil|by left]. }
  destruct (partition sep s) as [[before mid] after].
  destruct IH as (-> & Hnot & Hmid). split; [done|]. split; [|done].
  intros [?|?]%elem_of_cons; [congruence|done].
Qed.

Lemma partition0_spec sep s :
  (sep ∉ partition0 sep s) ∧
  (partition0 sep s = s ∨ ∃ after, s = partition0 sep s ++ sep :: after).
Proof.
  unfold partition0. pose proof (partition_spec sep s) as Hp.
  destruct (partition sep s) as [[before mid] after]. simpl.
  destruct Hp as (-> & Hnot & [->|[-> ->]]); (split; [done|]).
  - right. by exists after.
  - left. by rewrite !app_nil_r.
Qed.

Lemma partition0_absent sep s : sep ∉ s → partition0 sep s = s.
Proof.
  intros Hnot. destruct (partition0_spec sep s) as [_ [Heq|[after Heq]]]; [done|].
  exfalso. apply Hnot. rewrite Heq. apply elem_of_app. right. by left.
Qed.

(** ** The remote-user backend *)

Section remote_user_more.
Import RemoteUserAuthenticationBackend.

(** X1.  [clean_username] returns the part of the identity before its first
    ['@']: the result holds no ['@'], and the identity is the result alone
    or the result followed by ['@'] and a realm. *)
Theorem remote_clean_username_cuts_realm username :
  (64 ∉ clean_username username) ∧
  (clean_username username = username ∨
   ∃ realm, username = clean_username username ++ 64 :: realm).
Proof. apply partition0_spec. Qed.

(** X2.  Cleaning is idempotent, and leaves an identity without realm as it
    is. *)
Theorem remote_clean_username_idempotent username :
  clean_username (clean_username username) = clean_username username ∧
  (64 ∉ username → clean_username username = username).
Proof.
  split; [|apply partition0_absent].
  apply partition0_absent, partition0_spec.
Qed.

(** X3.  For every asserted identity the backend makes at most one lookup,
    by the cleaned name, and returns the user of that name when there is one
    and it is active, [None] otherwise; it never writes to the [User] table,
    the log or the session. *)
Theorem remote_user_authenticate_spec request remote_user w :
  authenticate request remote_user w =
    match remote_user with
    | None | Some [] => (Ret None, w)
    | Some identity =>
        (Ret (match users w !! clean_username identity with
              | Some user => if is_active user then Some user else None
              | None => None
              end),
         add_event (DbGet (Some (clean_username identity))) w)
    end.
Proof.
  unfold authenticate, RemoteUserBackend.authenticate.
  destruct remote_user as [[|c identity]|]; [done| |done].
  cbn [truthy negb from_option id cls_create_unknown_user cls_clean_username cls
       create_unknown_user].
  unfold bind, try_except, User_objects_get, ret. cbn [mbind option_bind].
  destruct (users w !! clean_username (c :: identity)) as [user|]; [|done].
  cbn [RemoteUserBackend.user_can_authenticate]. by destruct (is_active user).
Qed.

End remote_user_more.

(** ** Computations that only add to the trace and the log *)

Lemma grows_refl w : grows w w.
Proof. by repeat split. Qed.

Lemma grows_trans w1 w2 w3 : grows w1 w2 → grows w2 w3 → grows w1 w3.
Proof.
  intros (Hu1 & Hs1 & Hl1 & Ht1) (Hu2 & Hs2 & Hl2 & Ht2).
  repeat split; [congruence|congruence|by etrans|by etrans].
Qed.

Lemma grows_extend evs lg w : grows w (extend evs lg w).
Proof. repeat split; simpl; by apply prefix_app_r. Qed.

Lemma grows_add_event ev w : grows w (add_event ev w).
Proof. rewrite add_event_extend. apply grows_extend. Qed.

Lemma grows_add_log l msg w : grows w (add_log l msg w).
Proof. rewrite add_log_extend. apply grows_extend. Qed.

Section frame_rules.
Context {A : Type}.

Lemma frame_ret (a : A) : frame (ret a).
Proof. intros w. apply grows_refl. Qed.

Lemma frame_raise e : frame (@raise A e).
Proof. intros w. apply grows_refl. Qed.

Lemma frame_bind {B} (m : M B) (k : B → M A) :
  frame m → (∀ b, frame (k b)) → frame (bind m k).
Proof.
  intros Hm Hk w. unfold bind. specialize (Hm w).
  destruct (m w) as [[b|e] w']; [|done].
  eapply grows_trans; [exact Hm|apply Hk].
Qed.

Lemma frame_try_except (m : M A) h :
  frame m → (∀ e handler, h e = Some handler → frame handler) →
  frame (try_except m h).
Proof.
  intros Hm Hh w. unfold try_except. specialize (Hm w).
  destruct (m w) as [[a|e] w']; [done|].
  destruct (h e) as [handler|] eqn:He; [|done].
  eapply grows_trans; [exact Hm|by eapply Hh].
Qed.

Lemma frame_getitem key (v : option A) : frame (getitem key v).
Proof. destruct v; [apply frame_ret|apply frame_raise]. Qed.

Lemma frame_item i (l : list A) : frame (item i l).
Proof. unfold item. destruct (l !! i); [apply frame_ret|apply frame_raise]. Qed.

Lemma frame_wp (m : M A) Q : wp m Q → frame m.
Proof. intros (r & evs & lg & Hm & _) w. rewrite Hm. apply grows_extend. Qed.

End frame_rules.

Lemma frame_User_objects_get name : frame (User_objects_get name).
Proof.
  intros w. unfold User_objects_get. cbv zeta.
  destruct (name ≫= _); apply grows_add_event.
Qed.

Lemma frame_auth_logger_warning msg : frame (auth_logger_warning msg).
Proof. intros w. apply grows_add_log. Qed.

Lemma frame_auth_logger_debug msg : frame (auth_logger_debug msg).
Proof. intros w. apply grows_add_log. Qed.

Lemma frame_b64decode s : frame (b64decode s).
Proof.
  unfold b64decode. destruct (encode_ascii s); [|apply frame_raise].
  destruct (a2b_base64 _); [apply frame_ret|apply frame_raise].
Qed.

Lemma frame_bytes_decode raw : frame (bytes_decode raw).
Proof. unfold bytes_decode. destruct (decode_utf8 raw); [apply frame_ret|apply frame_raise]. Qed.

Lemma frame_entry_dn e : frame (entry_dn e).
Proof. destruct e; [apply frame_ret|apply frame_raise]. Qed.

Section frame_ldap3.
Context `{Environment}.

Lemma frame_new_Tls certificate : frame (new_Tls certificate).
Proof. unfold new_Tls. cbv zeta. destruct (Tls_fault _); [apply frame_raise|apply frame_ret]. Qed.

Lemma frame_new_Server url port use_ssl t : frame (new_Server url port use_ssl t).
Proof.
  unfold new_Server. cbv zeta. destruct (Server_fault _); [apply frame_raise|apply frame_ret].
Qed.

Lemma frame_new_Connection s user password auto_bind authentication :
  frame (new_Connection s user password auto_bind authentication).
Proof.
  intros w. unfold new_Connection. cbv zeta.
  destruct (bind_answer_of _); apply grows_add_event.
Qed.

Lemma frame_Connection_search c search_base search_filter attrs :
  frame (Connection_search c search_base search_filter attrs).
Proof.
  intros w. unfold Connection_search. cbv zeta.
  destruct (search_answer_of _ _ _ _); apply grows_add_event.
Qed.

Lemma frame_Connection_unbind c : frame (Connection_unbind c).
Proof.
  intros w. unfold Connection_unbind. cbv zeta.
  destruct (unbind_fault _); apply grows_add_event.
Qed.

End frame_ldap3.

(** One step of a frame proof: the rule of the next call, or a case
    distinction on the value the code branches on. *)
Ltac frame_step :=
  lazymatch goal with
  | |- frame (bind _ _) => apply frame_bind; [|intros ?]
  | |- frame (ret _) => apply frame_ret
  | |- frame (raise _) => apply frame_raise
  | |- frame (try_except _ _) =>
      apply frame_try_except;
      [|let e := fresh "e" in let Hh := fresh "Hh" in
        intros e ? Hh; destruct e; simplify_eq]
  | |- frame (getitem _ _) => apply frame_getitem
  | |- frame (item _ _) => apply frame_item
  | |- frame (User_objects_get _) => apply frame_User_objects_get
  | |- frame (auth_logger_warning _) => apply frame_auth_logger_warning
  | |- frame (auth_logger_debug _) => apply frame_auth_logger_debug
  | |- frame (b64decode _) => apply frame_b64decode
  | |- frame (bytes_decode _) => apply frame_bytes_decode
  | |- frame (entry_dn _) => apply frame_entry_dn
  | |- frame (new_Tls _) => apply frame_new_Tls
  | |- frame (new_Server _ _ _ _) => apply frame_new_Server
  | |- frame (new_Connection _ _ _ _ _) => apply frame_new_Connection
  | |- frame (Connection_search _ _ _ _) => apply frame_Connection_search
  | |- frame (Connection_unbind _) => apply frame_Connection_unbind
  | |- frame (if ?b then _ else _) => destruct b
  | |- frame (match ?x with _ => _ end) => destruct x
  end.

Ltac frame_go := repeat (cbv beta iota zeta; frame_step).

(** ** The header backend, further *)

Section header_backend_more.
Import NginxKerberosAuthorizationHeaderAuthenticationBackend.

Lemma frame_clean_username header : frame (clean_username header).
Proof. unfold clean_username. frame_go. Qed.

(** X4.  Whatever the request and the arguments, the header backend only
    reads: the [User] table and the session are as before, and the trace
    and the log are extended, also when the call ends in an exception. *)
Theorem header_authenticate_only_reads request username password w :
  grows w (authenticate request username password w).2.
Proof.
  revert w. change (frame (authenticate request username password)).
  unfold authenticate. apply frame_bind; [apply frame_clean_username|intros name].
  frame_go.
Qed.

Lemma clean_username_pieces header creds w :
  split header = [str "Basic"; creds] →
  clean_username (Some header) w =
    match decode_failure creds with
    | Some e => (Raise e, w)
    | None =>
        (Ret (partition0 58 <$> (a2b_base64 creds ≫= decode_utf8)), w)
    end.
Proof.
  intros Hpieces. unfold clean_username, decode_failure.
  assert (header ≠ []) as Hne by (by intros ->).
  rewrite truthy_nonempty by done. cbn [negb from_option id]. cbv zeta.
  rewrite Hpieces. cbn [length Nat.eqb negb].
  unfold bind, item, ret, raise, b64decode, bytes_decode. cbn [lookup list_lookup].
  rewrite bool_decide_true by done. cbn [negb].
  unfold encode_ascii. destruct (forallb _ creds); [|done]. cbv beta iota.
  destruct (a2b_base64 creds) as [raw|]; [|done]. cbn [mbind option_bind].
  unfold ret. cbv beta iota. by destruct (decode_utf8 raw).
Qed.

(** X5.  On a header of two tokens, [Basic] and credentials that decode to
    a text, [clean_username] returns that text up to its first colon: the
    name holds no colon, what follows the colon plays no part, and a text
    without colon is the name as a whole. *)
Theorem header_username_before_colon header creds decoded w :
  split header = [str "Basic"; creds] →
  forallb (λ c, c <? 128) creds = true →
  a2b_base64 creds ≫= decode_utf8 = Some decoded →
  ∃ name,
    clean_username (Some header) w = (Ret (Some name), w) ∧
    (58 ∉ name) ∧
    (name = decoded ∨ ∃ password, decoded = name ++ 58 :: password).
Proof.
  intros Hpieces Hascii Hdecoded. exists (partition0 58 decoded).
  rewrite (clean_username_pieces header creds) by done.
  unfold decode_failure, encode_ascii. rewrite Hascii.
  destruct (a2b_base64 creds) as [raw|]; [|done]. cbn [mbind option_bind] in *.
  rewrite Hdecoded. split; [done|]. apply partition0_spec.
Qed.

(** X6.  Credentials that are not ASCII, not base64 of whole quads, or not
    UTF-8 once decoded are not turned into a denial: the exception of the
    decoding leaves [authenticate], with the world untouched. *)
Theorem header_undecodable_raises request username password header creds e w :
  META request !! str "HTTP_AUTHORIZATION" = Some header →
  split header = [str "Basic"; creds] →
  decode_failure creds = Some e →
  authenticate request username password w = (Raise e, w).
Proof.
  intros Hheader Hpieces Hfail. unfold authenticate. rewrite Hheader.
  erewrite bind_Raise; [reflexivity|].
  rewrite (clean_username_pieces header creds) by done. by rewrite Hfail.
Qed.

(** X7.  With a header that yields the name [name], the backend decides on
    the [User] table alone, whatever user name and password it is called
    with and whatever follows the colon: an unknown or inactive name is
    denied with a warning, an active user is returned with a debug line. *)
Theorem header_authenticate_by_name request username password header name w :
  META request !! str "HTTP_AUTHORIZATION" = Some header →
  clean_username (Some header) w = (Ret (Some name), w) →
  authenticate request username password w =
    match users w !! name with
    | None =>
        (Ret None,
         extend [DbGet (Some name)]
           [(WARNING,
             str "Username " ++ name ++
             str " attempted to authenticate with Kerberos via Nginx, but that username does not exist in the NEMO database. The user was denied access.")]
           w)
    | Some user =>
        if is_active user then
          (Ret (Some user),
           extend [DbGet (Some name)]
             [(DEBUG,
               str "User " ++ name ++
               str " successfully authenticated with Kerberos via Nginx and was granted access to NEMO.")]
             w)
        else
          (Ret None,
           extend [DbGet (Some name)]
             [(WARNING,
               str "User " ++ name ++
               str " successfully authenticated with Kerberos via Nginx, but that user is marked inactive in the NEMO database. The user was denied access.")]
             w)
    end.
Proof.
  intros Hheader Hname. unfold authenticate. rewrite Hheader.
  erewrite bind_Ret by exact Hname.
  destruct (users w !! name) as [user|] eqn:Huser.
  - erewrite bind_Ret; last first.
    { apply try_except_Ret. erewrite bind_Ret by (by apply User_objects_get_Some).
      reflexivity. }
    cbv beta iota. destruct (is_active user); cbn [negb].
    + unfold bind, auth_logger_debug, ret. cbn [fmt].
      by rewrite add_event_extend, add_log_extend, extend_extend.
    + unfold bind, auth_logger_warning, ret. cbn [fmt].
      by rewrite add_event_extend, add_log_extend, extend_extend.
  - erewrite bind_Ret; last first.
    { erewrite try_except_Raise by (by apply bind_Raise, User_objects_get_None).
      unfold bind, auth_logger_warning, ret. reflexivity. }
    cbv beta iota. cbn [fmt].
    by rewrite add_event_extend, add_log_extend, extend_extend.
Qed.

End header_backend_more.

(** ** The LDAP backend, further *)

Section ldap_backend_more.
Context `{Environment}.
Import LDAPAuthenticationBackend.

Lemma frame_try_server username password server errors :
  frame (try_server username password server errors).
Proof. unfold try_server, try_body, search_for_user. frame_go. Qed.

Lemma frame_for_servers username password servers errors :
  frame (for_servers username password servers errors).
Proof.
  revert errors. induction servers as [|server servers IH]; intros errors; simpl.
  - apply frame_ret.
  - apply frame_bind; [apply frame_try_server|intros [[|] errors']]; simpl.
    + apply frame_ret.
    + apply IH.
Qed.

Lemma frame_warn_all errors : frame (warn_all errors).
Proof.
  induction errors as [|msg errors IH]; simpl; [apply frame_ret|].
  apply frame_bind; [apply frame_auth_logger_warning|by intros _].
Qed.

(** X8.  Whatever the settings, the directory and the arguments, the LDAP
    backend only reads: apart from the decorator's mark on the request, the
    [User] table and the session are as before and the trace and the log
    are extended, also when the call ends in an exception. *)
Theorem ldap_authenticate_only_reads request username password w :
  grows (set_sensitive [str "password"] w) (authenticate request username password w).2.
Proof.
  unfold authenticate, sensitive_post_parameters.
  generalize (set_sensitive [str "password"] w). clear w.
  match goal with |- ∀ w, grows w (?m w).2 => change (frame m) end.
  destruct (negb (truthy username) || negb (truthy password)); [apply frame_ret|].
  cbv zeta. apply frame_bind; [frame_go|intros user].
  apply frame_bind; [frame_go|intros _].
  apply frame_bind; [apply frame_for_servers|intros [[|] errors]]; cbn [fst snd].
  - apply frame_ret.
  - apply frame_bind; [apply frame_warn_all|intros _; apply frame_ret].
Qed.

Lemma for_servers_append username password servers1 servers2 errors w :
  for_servers username password (servers1 ++ servers2) errors w =
    match for_servers username password servers1 errors w with
    | (Ret (false, errors1), w1) => for_servers username password servers2 errors1 w1
    | stopped => stopped
    end.
Proof.
  revert errors w. induction servers1 as [|server servers1 IH]; intros errors w; [done|].
  cbn [app for_servers]. unfold bind.
  destruct (try_server username password server errors w) as [[[[|] errors1]|e] w1];
    cbn [fst snd]; [done|apply IH|done].
Qed.

(** X9.  The loop over a list of servers is the loop over a first part
    followed, when that part ends without an accepted bind, by the loop over
    the rest with the errors collected so far; an accepted bind or an
    exception in the first part ends the whole. *)
Theorem for_servers_app username password servers1 servers2 errors w :
  for_servers username password (servers1 ++ servers2) errors w =
    match for_servers username password servers1 errors w with
    | (Ret (false, errors1), w1) => for_servers username password servers2 errors1 w1
    | stopped => stopped
    end.
Proof.
  revert errors w. induction servers1 as [|server servers1 IH]; intros errors w; [done|].
  cbn [app for_servers]. unfold bind.
  destruct (try_server username password server errors w) as [[[[|] errors1]|e] w1];
    cbn [fst snd]; [done|apply IH|done].
Qed.

(** X10.  A user name that is unknown or inactive is refused before any
    directory server is contacted, whatever the servers are: the call
    raises [DoesNotExist], or [InactiveUserError] for the name, after one
    lookup and one warning. *)
Theorem ldap_refused_before_directory request username password w :
  username ≠ [] → password ≠ [] →
  (∀ user, users w !! username = Some user → is_active user = false) →
  authenticate request (Some username) (Some password) w =
    match users w !! username with
    | None =>
        (Raise DoesNotExist,
         extend [DbGet (Some username)] [(WARNING, unknown_user_message username)]
           (set_sensitive [str "password"] w))
    | Some _ =>
        (Raise (InactiveUserError username),
         extend [DbGet (Some username)] [(WARNING, inactive_user_message username)]
           (set_sensitive [str "password"] w))
    end.
Proof.
  intros Hu Hp Hinactive. destruct (users w !! username) as [user|] eqn:Huser.
  - by apply (ldap_inactive_user request username password user); [..|apply Hinactive].
  - by apply ldap_unknown_user.
Qed.

Lemma try_server_without_url username password server errors w :
  cfg_url server = None →
  try_server username password server errors w = (Raise (KeyError (str "url")), w).
Proof.
  intros Hurl. unfold try_server, try_except, try_body, bind, new_Tls. cbv zeta.
  rewrite Hurl. destruct (Tls_fault _); reflexivity.
Qed.

(** X11.  A descriptor without [url] ends the call in [KeyError]: when the
    servers before it are well formed and none accepts, the user known and
    active, [authenticate] raises [KeyError('url')] on reaching it, whatever
    the directory answers; the servers after it are not tried and the
    errors collected so far are not logged. *)
Theorem ldap_missing_url_raises request username password user w before server after :
  username ≠ [] → password ≠ [] →
  users w !! username = Some user → is_active user = true →
  LDAP_SERVERS = before ++ server :: after →
  Forall well_formed before →
  first_accepting username password before = None →
  cfg_url server = None →
  authenticate request (Some username) (Some password) w =
    (Raise (KeyError (str "url")),
     extend (DbGet (Some username) :: concat (contacts username password <$> before)) []
       (set_sensitive [str "password"] w)).
Proof.
  intros Hu Hp Huser Hactive Hsplit Hwf Hnone Hurl.
  rewrite (authenticate_known_user request username password user) by done.
  cbv zeta. rewrite Hsplit, for_servers_append, for_servers_spec, Hnone by done.
  cbn [for_servers]. unfold bind. rewrite try_server_without_url by done.
  by rewrite add_event_extend, extend_extend.
Qed.

(** X12.  In the search mode a descriptor without [base_dn] ends the round
    in [KeyError('base_dn')] once the search bind is accepted: the search
    connection has been bound and is not released. *)
Theorem ldap_missing_base_dn_raises username password server url errors w :
  cfg_url server = Some url →
  cfg_bind_as_authentication server = Some false →
  cfg_base_dn server = None →
  Tls_fault (mkTls (cfg_certificate server)) = None →
  Server_fault (Server_of server url) = None →
  bind_answer_of (search_connection server (Server_of server url)) = Bound →
  try_server username password server errors w =
    (Raise (KeyError (str "base_dn")),
     extend [LdapBind (search_connection server (Server_of server url))] [] w).
Proof.
  intros Hurl Hsearch Hbase Htls Hsrv Hbind.
  unfold Server_of, search_connection, auto_bind_of in *.
  unfold try_server, try_except, try_body, search_for_user, bind, new_Tls, new_Server,
    new_Connection, getitem, ret, raise.
  cbv zeta. rewrite Htls, Hurl. cbv beta iota. rewrite Hsrv, Hsearch.
  cbn [from_option id negb]. cbv beta iota. rewrite Hbind, Hbase.
  by rewrite add_event_extend.
Qed.

(** X13.  When the user binds directly and the directory refuses the bind,
    the round contacts the server once, binding as the user name (qualified
    with the domain when one is set) with the supplied password, and leaves
    the incorrect-password line in [errors]; the loop goes on. *)
Theorem ldap_wrong_password_line username password server url msg errors w :
  cfg_url server = Some url →
  default true (cfg_bind_as_authentication server) = true →
  Tls_fault (mkTls (cfg_certificate server)) = None →
  Server_fault (Server_of server url) = None →
  bind_answer_of
    (mkConnection (Server_of server url)
       (Some (if truthy (cfg_domain server)
              then fmt (cfg_domain server) ++ [92] ++ username else username))
       (Some password) (auto_bind_of server) SIMPLE) = BindRefused msg →
  try_server username password server errors w =
    (Ret (Continue,
          errors ++
          [str "User " ++ username ++ str " attempted to authenticate with LDAP (" ++ url ++
           str "), but entered an incorrect password. The user was denied access: " ++ msg]),
     extend
       [LdapBind
          (mkConnection (Server_of server url)
             (Some (if truthy (cfg_domain server)
                    then fmt (cfg_domain server) ++ [92] ++ username else username))
             (Some password) (auto_bind_of server) SIMPLE)] [] w).
Proof.
  intros Hurl Hdirect Htls Hsrv Hbind.
  unfold Server_of, auto_bind_of in *.
  unfold try_server, try_except, try_body, bind, new_Tls, new_Server,
    new_Connection, getitem, ret, raise.
  cbv zeta. rewrite Htls, Hurl. cbv beta iota. rewrite Hsrv, Hdirect.
  cbn [negb]. cbv beta iota. rewrite Hbind.
  by rewrite add_event_extend.
Qed.

(** X14.  When the user is searched for first and the directory refuses the
    search bind, made with the service account of the settings, the line
    left in [errors] is the incorrect-password line for the user, although
    the user's password has not been sent. *)
Theorem ldap_search_bind_refused_line username password server url msg errors w :
  cfg_url server = Some url →
  cfg_bind_as_authentication server = Some false →
  Tls_fault (mkTls (cfg_certificate server)) = None →
  Server_fault (Server_of server url) = None →
  bind_answer_of (search_connection server (Server_of server url)) = BindRefused msg →
  try_server username password server errors w =
    (Ret (Continue,
          errors ++
          [str "User " ++ username ++ str " attempted to authenticate with LDAP (" ++ url ++
           str "), but entered an incorrect password. The user was denied access: " ++ msg]),
     extend [LdapBind (search_connection server (Server_of server url))] [] w).
Proof.
  intros Hurl Hsearch Htls Hsrv Hbind.
  unfold Server_of, search_connection, auto_bind_of in *.
  unfold try_server, try_except, try_body, search_for_user, bind, new_Tls, new_Server,
    new_Connection, getitem, ret, raise.
  cbv zeta. rewrite Htls, Hurl. cbv beta iota. rewrite Hsrv, Hsearch.
  cbn [from_option id negb]. cbv beta iota. rewrite Hbind.
  by rewrite add_event_extend.
Qed.

(** X15.  In the search mode the user binds as the distinguished name the
    search resolves, not as the user name or its domain form: the round
    binds the search connection, searches the base with the filter built
    from the user name as given, releases the connection, binds as the [dn]
    of the first entry with the supplied password, and leaves the loop. *)
Theorem ldap_search_then_bind username password server url base_dn dn attributes rest
    errors w :
  let s := Server_of server url in
  let c := search_connection server s in
  let attribute := default (str "cn") (cfg_search_attribute server) in
  let c' := mkConnection s (Some dn) (Some password) (auto_bind_of server) SIMPLE in
  cfg_url server = Some url →
  cfg_bind_as_authentication server = Some false →
  cfg_base_dn server = Some base_dn →
  Tls_fault (mkTls (cfg_certificate server)) = None →
  Server_fault s = None →
  bind_answer_of c = Bound →
  search_answer_of c base_dn (search_filter_of username server) [attribute]
    = SearchTrue (searchResEntry dn attributes) rest →
  attribute ∈ attributes →
  unbind_fault c = None →
  bind_answer_of c' = Bound →
  unbind_fault c' = None →
  try_server username password server errors w =
    (Ret (Break, errors),
     extend
       [LdapBind c;
        LdapSearch c base_dn (search_filter_of username server) [attribute];
        LdapUnbind c; LdapBind c'; LdapUnbind c']
       [(DEBUG, str "User " ++ username ++
                str " was successfully authenticated with LDAP (" ++ url ++ str ")")] w).
Proof.
  intros s c attribute c' Hurl Hsearch Hbase Htls Hsrv Hbind Hanswer Hattr Hunbind
    Hbind' Hunbind'.
  subst s c attribute c'.
  unfold Server_of, search_connection, search_filter_of, auto_bind_of in *.
  unfold try_server, try_except, try_body, search_for_user, bind, new_Tls, new_Server,
    new_Connection, Connection_search, Connection_unbind, getitem, item, entry_dn,
    auth_logger_debug, ret, raise.
  cbv zeta. rewrite Htls, Hurl. cbv beta iota. rewrite Hsrv, Hsearch.
  cbn [from_option id negb]. cbv beta iota. rewrite Hbind, Hbase. cbv beta iota.
  rewrite Hanswer. cbn [fst snd negb lookup list_lookup entry_attributes]. cbv beta iota.
  rewrite bool_decide_true by done. cbn [negb]. cbv beta iota.
  rewrite Hunbind. cbv beta iota. rewrite Hbind'. cbv beta iota. rewrite Hunbind'.
  rewrite !add_event_extend, add_log_extend, !extend_extend. reflexivity.
Qed.

End ldap_backend_more.

Section ldap_connections.
Context `{Environment}.
Import LDAPAuthenticationBackend.

Lemma try_server_connections_wp username password server url errors :
  cfg_url server = Some url →
  wp (try_server username password server errors)
    (λ _ evs _,
       Forall (λ ev, ∀ c, event_connection ev = Some c →
                 conn_server c = Server_of server url ∧
                 conn_auto_bind c = auto_bind_of server) evs).
Proof.
  intros Hurl.
  destruct server as [u po ssl baa dom cert bu bp suf sa bdn]; simpl in *.
  subst u.
  cbv beta iota zeta delta
    [try_server try_body search_for_user Server_of auto_bind_of
     cfg_url cfg_port cfg_use_ssl cfg_bind_as_authentication cfg_domain cfg_certificate
     cfg_bind_username cfg_bind_password cfg_search_username_field cfg_search_attribute
     cfg_base_dn].
  wp_go.
  all: simpl; repeat (apply List.Forall_cons; [by intros conn [= <-]|]).
  all: apply List.Forall_nil.
Qed.

(** X24.  Every bind, search and unbind of a round is made on a connection
    to the server of the descriptor: its [url], its [port] or 636, [use_ssl]
    or true with the configured certificate file, and with TLS started
    before the bind unless [use_ssl] is false. *)
Theorem ldap_connections_follow_settings username password server url ev c :
  cfg_url server = Some url →
  ev ∈ contacts username password server →
  event_connection ev = Some c →
  conn_server c =
    mkServer url (default 636%Z (cfg_port server)) (default true (cfg_use_ssl server))
      (mkTls (cfg_certificate server)) ∧
  conn_auto_bind c =
    match cfg_use_ssl server with
    | Some false => AUTO_BIND_NO_TLS
    | _ => AUTO_BIND_TLS_BEFORE_BIND
    end.
Proof.
  intros Hurl Hev Hc.
  destruct (wp_run _ _ pristine
              (try_server_connections_wp username password server url [] Hurl))
    as [HQ _].
  rewrite Forall_forall in HQ. destruct (HQ ev Hev c Hc) as [-> ->].
  split; [done|]. unfold auto_bind_of. by destruct (cfg_use_ssl server) as [[|]|].
Qed.

End ldap_connections.

(** ** The views, further *)

Section views_more.
Context `{Environment}.

(** X16.  A request whose method is neither GET nor POST is answered with
    405 and the two permitted methods; nothing else happens, not even the
    mark of the sensitive parameters. *)
Theorem login_user_method_not_allowed request w :
  method request ∉ [str "GET"; str "POST"] →
  login_user request w = (Ret (HttpResponseNotAllowed [str "GET"; str "POST"]), w).
Proof.
  intros Hmethod. unfold login_user, require_http_methods.
  by rewrite bool_decide_false.
Qed.

(** X17.  A GET that gets past the first statement is answered with the
    login form, not flagged incorrect; no backend is asked, whatever the
    query and the form data hold. *)
Theorem login_user_get_renders_form request w :
  method request = str "GET" → form_is_served request = true →
  login_user request w =
    (Ret (login_page_of get_media_file_contents false), set_sensitive [str "password"] w).
Proof.
  intros Hget Hform. unfold login_user, require_http_methods, sensitive_post_parameters.
  rewrite Hget. rewrite bool_decide_true by (by left).
  unfold form_is_served, fallback_backends in Hform.
  erewrite bind_Ret with (a := None); last first.
  { destruct (bool_decide _ || bool_decide _); [|done].
    cbn [negb orb] in Hform. apply andb_true_iff in Hform as [Hanon Hfb].
    apply negb_true_iff in Hanon as ->. apply negb_true_iff in Hfb as ->. done. }
  cbv beta iota zeta. by rewrite bool_decide_true.
Qed.

(** X18.  When the settings name the remote-user or the header backend, a
    user who is already authenticated is sent to the landing page, for GET
    and POST alike: posted credentials are not looked at and no session is
    started. *)
Theorem login_user_already_authenticated request w :
  method request ∈ [str "GET"; str "POST"] →
  RemoteUser_path ∈ AUTHENTICATION_BACKENDS ∨ NginxHeader_path ∈ AUTHENTICATION_BACKENDS →
  user_is_authenticated request = true →
  login_user request w =
    (Ret (HttpResponseRedirect landing), set_sensitive [str "password"] w).
Proof.
  intros Hmethod Hpre Hauth.
  unfold login_user, require_http_methods, sensitive_post_parameters.
  rewrite bool_decide_true by done.
  assert (bool_decide (RemoteUser_path ∈ AUTHENTICATION_BACKENDS)
          || bool_decide (NginxHeader_path ∈ AUTHENTICATION_BACKENDS) = true) as ->.
  { destruct Hpre as [Hpre|Hpre]; rewrite (bool_decide_true _ Hpre); [done|].
    by rewrite orb_true_r. }
  by rewrite Hauth.
Qed.

(** X19.  Of the exceptions a backend raises, the view turns only
    [DoesNotExist] and [InactiveUserError] into a page; any other one, such
    as the [KeyError] of an incomplete server descriptor, leaves
    [login_user] and no response is made. *)
Theorem login_user_propagates request e w w1 :
  method request = str "POST" → form_is_served request = true →
  authenticate request
    (QueryDict_get (str "username") [] (POST request))
    (QueryDict_get (str "password") [] (POST request))
    (set_sensitive [str "password"] w) = (Raise e, w1) →
  e ≠ DoesNotExist → (∀ name, e ≠ InactiveUserError name) →
  login_user request w = (Raise e, w1).
Proof.
  intros Hpost Hform Hraise Hne1 Hne2.
  rewrite login_user_post, Hraise by done.
  destruct e; try done. by destruct (Hne2 user).
Qed.

(** X20.  A POST login starts a session exactly when [authenticate] returns
    a user, and for that user; a denial, by [None] or by one of the two
    exceptions, leaves the session as the backends left it. *)
Theorem login_user_session request r w w1 :
  method request = str "POST" → form_is_served request = true →
  authenticate request
    (QueryDict_get (str "username") [] (POST request))
    (QueryDict_get (str "password") [] (POST request))
    (set_sensitive [str "password"] w) = (r, w1) →
  session (login_user request w).2 =
    match r with
    | Ret (Some user) => Some user
    | _ => session w1
    end.
Proof.
  intros Hpost Hform Hauth. rewrite login_user_post, Hauth by done.
  destruct r as [[user|]|e]; [done|done|]. by destruct e.
Qed.

(** X21.  [logout_user] answers a GET by ending the session, whether or not
    there was one, and redirecting to the landing page; any other method is
    answered with 405 and the session is kept. *)
Theorem logout_user_spec request w :
  logout_user request w =
    if bool_decide (method request = str "GET")
    then (Ret (HttpResponseRedirect landing), set_session None w)
    else (Ret (HttpResponseNotAllowed [str "GET"]), w).
Proof.
  unfold logout_user, require_http_methods.
  destruct (decide (method request = str "GET")) as [Hget|Hget].
  - rewrite !bool_decide_true; [done|done|]. rewrite Hget. by left.
  - rewrite !bool_decide_false; [done|done|].
    intros [?|Hin]%elem_of_cons; [done|]. by apply elem_of_nil in Hin.
Qed.

End views_more.

(** ** The migration, further *)

Section migration_more.
Import migrations.

(** X23.  The two operations of the migration are independent: applied to
    the project state in the other order they succeed on the same states,
    those that have the model [landingpagechoice], and give the same fields
    by name. *)
Theorem migration_operations_commute (state : ProjectState) :
  apply_operations (rev operations) state = apply_operations operations state.
Proof.
  assert (str "hide_from_users" ≠ str "hide_from_staff") as Hne by (by vm_compute).
  unfold operations. cbn [rev app apply_operations apply_operation].
  destruct (state !! str "landingpagechoice") as [fields|] eqn:Hmodel;
    cbn [mbind option_bind]; [|done].
  rewrite !lookup_insert_eq. cbn [mbind option_bind].
  rewrite !insert_insert_eq. f_equal. f_equal. by apply insert_insert_ne.
Qed.

End migration_more.

(** ** The further properties on the deployment *)

Lemma header_username_before_colon_witness :
  split (str "  Basic   dXNlcjp4 ") = [str "Basic"; str "dXNlcjp4"] ∧
  a2b_base64 (str "dXNlcjp4") ≫= decode_utf8 = Some (str "user:x") ∧
  ∃ name,
    NginxKerberosAuthorizationHeaderAuthenticationBackend.clean_username
      (Some (str "  Basic   dXNlcjp4 ")) demo.start = (Ret (Some name), demo.start) ∧
    (58 ∉ name) ∧
    (name = str "user:x" ∨ ∃ password, str "user:x" = name ++ 58 :: password).
Proof.
  split; [by vm_compute|]. split; [by vm_compute|].
  apply (header_username_before_colon (str "  Basic   dXNlcjp4 ") (str "dXNlcjp4"));
    by vm_compute.
Defined.

Lemma header_undecodable_raises_witness :
  decode_failure (str "YQ") = Some binascii_Error ∧
  NginxKerberosAuthorizationHeaderAuthenticationBackend.authenticate
    (with_authorization (str "Basic YQ") demo.get_login) None None demo.start
  = (Raise binascii_Error, demo.start).
Proof.
  split; [by vm_compute|].
  apply (header_undecodable_raises _ None None (str "Basic YQ") (str "YQ"));
    by vm_compute.
Defined.

Lemma header_authenticate_by_name_witness :
  (NginxKerberosAuthorizationHeaderAuthenticationBackend.authenticate
     (with_authorization (str "Basic YWxpY2U6eA==") demo.get_login) None None
     demo.start).1 = Ret (Some demo.alice).
Proof.
  assert (users demo.start !! str "alice" = Some demo.alice) as Huser by (by vm_compute).
  pose proof (header_authenticate_by_name
                (with_authorization (str "Basic YWxpY2U6eA==") demo.get_login)
                None None (str "Basic YWxpY2U6eA==") (str "alice") demo.start)
    as Hmain.
  rewrite Huser in Hmain. cbn [is_active demo.alice] in Hmain.
  rewrite Hmain; [done|by vm_compute|by vm_compute].
Defined.

Lemma ldap_refused_before_directory_witness :
  (∀ user, users demo.start !! str "bob" = Some user → is_active user = false) ∧
  (@LDAPAuthenticationBackend.authenticate demo.ldap_site
     (demo.post_login "bob" "secret" []) (Some (str "bob")) (Some (str "secret"))
     demo.start).1 = Raise (InactiveUserError (str "bob")).
Proof.
  assert (str "bob" ≠ []) as Hu by (by vm_compute).
  assert (str "secret" ≠ []) as Hp by (by vm_compute).
  assert (users demo.start !! str "bob" = Some demo.bob) as Huser by (by vm_compute).
  assert (∀ user, users demo.start !! str "bob" = Some user → is_active user = false)
    as Hinactive.
  { intros user Hbob. rewrite Huser in Hbob. by injection Hbob as <-. }
  split; [done|].
  pose proof (@ldap_refused_before_directory demo.ldap_site
                (demo.post_login "bob" "secret" []) (str "bob") (str "secret")
                demo.start Hu Hp Hinactive) as Hmain.
  rewrite Huser in Hmain. exact (f_equal fst Hmain).
Defined.

Lemma ldap_missing_url_raises_witness :
  (@LDAPAuthenticationBackend.authenticate
     (demo.deployment [demo.searched_server; demo.nameless_server; demo.domain_server]
        [LDAP_path])
     (demo.post_login "alice" "secret" []) (Some (str "alice")) (Some (str "secret"))
     demo.start).1 = Raise (KeyError (str "url")).
Proof.
  assert (str "alice" ≠ []) as Hu by (by vm_compute).
  assert (str "secret" ≠ []) as Hp by (by vm_compute).
  assert (users demo.start !! str "alice" = Some demo.alice) as Huser by (by vm_compute).
  assert (Forall well_formed [demo.searched_server]) as Hwf.
  { repeat constructor; simpl; eauto. }
  exact (f_equal fst
           (@ldap_missing_url_raises
              (demo.deployment
                 [demo.searched_server; demo.nameless_server; demo.domain_server]
                 [LDAP_path])
              (demo.post_login "alice" "secret" []) (str "alice") (str "secret")
              demo.alice demo.start [demo.searched_server] demo.nameless_server
              [demo.domain_server] Hu Hp Huser eq_refl eq_refl Hwf eq_refl eq_refl)).
Defined.

Lemma ldap_missing_base_dn_raises_witness :
  (@LDAPAuthenticationBackend.try_server demo.ldap_site (str "alice") (str "secret")
     demo.baseless_server [] demo.start).1 = Raise (KeyError (str "base_dn")).
Proof.
  exact (f_equal fst
           (@ldap_missing_base_dn_raises demo.ldap_site (str "alice") (str "secret")
              demo.baseless_server (str "ldap1.example.org") [] demo.start
              eq_refl eq_refl eq_refl eq_refl eq_refl eq_refl)).
Defined.

Lemma ldap_wrong_password_line_witness :
  (@LDAPAuthenticationBackend.try_server demo.ldap_site (str "alice") (str "wrong")
     demo.domain_server [] demo.start).1 =
  Ret (LDAPAuthenticationBackend.Continue,
       [str "User alice attempted to authenticate with LDAP (ldap2.example.org), but entered an incorrect password. The user was denied access: invalidCredentials"]).
Proof.
  exact (f_equal fst
           (@ldap_wrong_password_line demo.ldap_site (str "alice") (str "wrong")
              demo.domain_server (str "ldap2.example.org") (str "invalidCredentials")
              [] demo.start eq_refl eq_refl eq_refl eq_refl eq_refl)).
Defined.

Lemma ldap_search_bind_refused_line_witness :
  (@LDAPAuthenticationBackend.try_server demo.ldap_site (str "alice") (str "secret")
     demo.service_server [] demo.start).1 =
  Ret (LDAPAuthenticationBackend.Continue,
       [str "User alice attempted to authenticate with LDAP (ldap1.example.org), but entered an incorrect password. The user was denied access: invalidCredentials"]).
Proof.
  exact (f_equal fst
           (@ldap_search_bind_refused_line demo.ldap_site (str "alice") (str "secret")
              demo.service_server (str "ldap1.example.org") (str "invalidCredentials")
              [] demo.start eq_refl eq_refl eq_refl eq_refl eq_refl)).
Defined.

Lemma ldap_search_then_bind_witness :
  (@LDAPAuthenticationBackend.try_server demo.entry_site (str "alice") (str "secret")
     demo.searched_server [] demo.start).1 =
  Ret (LDAPAuthenticationBackend.Break, []).
Proof.
  assert (str "cn" ∈ [str "cn"; str "mail"]) as Hattr by (by left).
  exact (f_equal fst
           (@ldap_search_then_bind demo.entry_site (str "alice") (str "secret")
              demo.searched_server (str "ldap1.example.org") (str "dc=example,dc=org")
              demo.alice_dn [str "cn"; str "mail"] [] [] demo.start
              eq_refl eq_refl eq_refl eq_refl eq_refl eq_refl eq_refl Hattr
              eq_refl eq_refl eq_refl)).
Defined.

Lemma login_user_method_not_allowed_witness :
  (method demo.put_login ∉ [str "GET"; str "POST"]) ∧
  @login_user demo.ldap_site demo.put_login demo.start
  = (Ret (HttpResponseNotAllowed [str "GET"; str "POST"]), demo.start).
Proof.
  assert (method demo.put_login ∉ [str "GET"; str "POST"]) as Hmethod.
  { intros [Heq|[Heq|Hin]%elem_of_cons]%elem_of_cons;
      [by vm_compute in Heq|by vm_compute in Heq|by apply elem_of_nil in Hin]. }
  split; [done|].
  exact (@login_user_method_not_allowed demo.ldap_site demo.put_login demo.start Hmethod).
Defined.

Lemma login_user_get_renders_form_witness :
  (@login_user demo.ldap_site demo.get_login demo.start).1
  = Ret (login_page_of (@get_media_file_contents demo.ldap_site) false).
Proof.
  exact (f_equal fst
           (@login_user_get_renders_form demo.ldap_site demo.get_login demo.start
              eq_refl eq_refl)).
Defined.

Lemma login_user_already_authenticated_witness :
  (@login_user demo.kerberos_site demo.signed_in_post demo.start).1
  = Ret (HttpResponseRedirect (str "/")).
Proof.
  assert (method demo.signed_in_post ∈ [str "GET"; str "POST"]) as Hmethod.
  { right. by left. }
  assert (RemoteUser_path ∈ @AUTHENTICATION_BACKENDS demo.kerberos_site) as Hin by (by left).
  exact (f_equal fst
           (@login_user_already_authenticated demo.kerberos_site demo.signed_in_post
              demo.start Hmethod (or_introl Hin) eq_refl)).
Defined.

Lemma login_user_propagates_witness :
  (@login_user (demo.deployment [demo.nameless_server] [LDAP_path])
     (demo.post_login "alice" "secret" []) demo.start).1 = Raise (KeyError (str "url")).
Proof.
  assert (KeyError (str "url") ≠ DoesNotExist) as Hne1 by done.
  assert (∀ name, KeyError (str "url") ≠ InactiveUserError name) as Hne2 by done.
  assert (∃ w1,
            @authenticate (demo.deployment [demo.nameless_server] [LDAP_path])
              (demo.post_login "alice" "secret" []) (str "alice") (str "secret")
              (set_sensitive [str "password"] demo.start)
            = (Raise (KeyError (str "url")), w1)) as [w1 Hraise].
  { eexists. vm_compute. reflexivity. }
  exact (f_equal fst
           (@login_user_propagates (demo.deployment [demo.nameless_server] [LDAP_path])
              (demo.post_login "alice" "secret" []) _ demo.start w1
              eq_refl eq_refl Hraise Hne1 Hne2)).
Defined.

Lemma login_user_session_witness :
  session (@login_user demo.ldap_site (demo.post_login "alice" "secret" [])
             demo.start).2 = Some demo.alice ∧
  session (@login_user demo.ldap_site (demo.post_login "alice" "wrong" [])
             demo.start).2 = None.
Proof.
  split.
  - rewrite (@login_user_session demo.ldap_site (demo.post_login "alice" "secret" [])
               _ demo.start _ eq_refl eq_refl (surjective_pairing _)).
    by vm_compute.
  - rewrite (@login_user_session demo.ldap_site (demo.post_login "alice" "wrong" [])
               _ demo.start _ eq_refl eq_refl (surjective_pairing _)).
    by vm_compute.
Defined.

Lemma ldap_connections_follow_settings_witness :
  LdapBind (@search_connection demo.searched_server
              (Server_of demo.searched_server (str "ldap1.example.org")))
    ∈ @contacts demo.ldap_site (str "alice") (str "secret") demo.searched_server ∧
  server_port (conn_server (@search_connection demo.searched_server
                              (Server_of demo.searched_server (str "ldap1.example.org"))))
    = 636%Z.
Proof.
  assert (LdapBind (@search_connection demo.searched_server
                      (Server_of demo.searched_server (str "ldap1.example.org")))
            ∈ @contacts demo.ldap_site (str "alice") (str "secret") demo.searched_server)
    as Hin by (by left).
  split; [done|].
  destruct (@ldap_connections_follow_settings demo.ldap_site (str "alice") (str "secret")
              demo.searched_server (str "ldap1.example.org") _ _
              eq_refl Hin eq_refl) as [Hs _].
  by rewrite Hs.
Defined.
